(** * Opera GraphQL API: repository facade, SFC bridge and account resolvers

    A shallow embedding of the data-access core of the API server:

    - package [repository] (the [proxy] facade): [AddTransaction],
      [Transaction], [Epoch], [CurrentSealedEpoch];
    - package [rpc] (the [FtmBridge] over the SFC contract binding):
      [stakerStatusFromSfc], [stakerLockFromSfc], [maxDelegatedLimit],
      [extendStaker], [Staker], [StakerByAddress], [Epoch],
      [CurrentSealedEpoch];
    - package [resolvers]: [Account.TxList], [Account.Contract].

    The three bridges the facade talks to (in-memory cache, document store,
    full node) are collaborators whose code lives outside the files embedded
    here.  They are kept abstract: each is an interface (a type class) over an
    arbitrary state type, and every function of the embedding is a computation
    that threads that state and emits the list of bridge calls and log lines
    it performed, in order. *)

From Stdlib Require Import ZArith List String Bool Lia.
From stdpp Require Import base gmap.
Import ListNotations.
Local Open Scope string_scope.
Local Open Scope list_scope.
Local Open Scope Z_scope.

(** ** Scalars of go-ethereum's [hexutil], [common] and [math/big] *)

Module hexutil.
(** [hexutil.Uint64]: an unsigned 64-bit integer. *)
Definition Uint64 : Type := Z.
(** [hexutil.Big]: an arbitrary-precision integer, by value. *)
Definition Big : Type := Z.
End hexutil.

Module common.
(** [common.Address]: 20 bytes, read as a number. *)
Definition Address : Type := Z.
End common.

Module big.
(** [big.Int.Uint64]: the low 64 bits of the magnitude. *)
Definition Uint64 (x : Z) : hexutil.Uint64 := Z.abs x mod 2 ^ 64.

(** [big.NewInt(int64(u))] for [u] a [hexutil.Uint64]: the conversion to
    [int64] wraps around. *)
Definition NewInt_int64 (u : hexutil.Uint64) : Z :=
  let m := u mod 2 ^ 64 in
  if m <? 2 ^ 63 then m else m - 2 ^ 64.

(** [big.Int.Div]: Euclidean division (the remainder is never negative);
    the caller rules out a zero divisor. *)
Definition Div (x y : Z) : Z := Z.sgn y * (x / Z.abs y).
End big.

(** ** Package [types] *)

Module types.
(** [types.Hash]: 32 bytes, read as a number. *)
Definition Hash : Type := Z.

Module Block.
Record t : Type := mk {
  Number : hexutil.Uint64;
  Hash : types.Hash;
  ParentHash : types.Hash;
  TimeStamp : hexutil.Uint64;
  GasLimit : hexutil.Uint64;
  GasUsed : hexutil.Uint64
}.
End Block.

(** A transaction; the nullable fields are Go pointers, [None] is [nil].
    [BlockHash] is [nil] as long as the transaction is pending. *)
Module Transaction.
Record t : Type := mk {
  Hash : types.Hash;
  Nonce : hexutil.Uint64;
  From : common.Address;
  To : option common.Address;
  ContractAddress : option common.Address;
  Value : hexutil.Big;
  BlockHash : option types.Hash;
  BlockNumber : option hexutil.Uint64;
  Index : option hexutil.Uint64;
  Status : option hexutil.Uint64
}.
End Transaction.

Module Epoch.
Record t : Type := mk {
  Id : hexutil.Uint64;
  EndTime : hexutil.Big;
  Duration : hexutil.Big;
  EpochFee : hexutil.Big;
  TotalBaseRewardWeight : hexutil.Big;
  TotalTxRewardWeight : hexutil.Big;
  BaseRewardPerSecond : hexutil.Big;
  StakeTotalAmount : hexutil.Big;
  DelegationsTotalAmount : hexutil.Big;
  TotalSupply : hexutil.Big
}.

(** [types.Epoch{}] *)
Definition zero : t := mk 0 0 0 0 0 0 0 0 0 0.
End Epoch.

(** A staker record: the fields the SFC bridge reads or writes, with the
    identity and life-cycle fields of the base record.  [TotalStake], [Stake]
    and [DelegatedMe] are pointers ([*hexutil.Big]); the two limits are held
    by value. *)
Module Staker.
Record t : Type := mk {
  Id : hexutil.Uint64;
  StakerAddress : common.Address;
  TotalStake : option hexutil.Big;
  Stake : option hexutil.Big;
  DelegatedMe : option hexutil.Big;
  TotalDelegatedLimit : hexutil.Big;
  DelegatedLimit : hexutil.Big;
  IsActive : bool;
  CreatedEpoch : hexutil.Uint64;
  LockedFromEpoch : hexutil.Uint64;
  LockedUntil : hexutil.Uint64;
  Status : hexutil.Uint64
}.

(** [var st types.Staker] *)
Definition zero : t := mk 0 0 None None None 0 0 false 0 0 0 0.

(** Assignments [staker.F = v] through the pointer the bridge is handed. *)
Definition set_TotalStake (v : option hexutil.Big) (s : t) : t :=
  mk (Id s) (StakerAddress s) v (Stake s) (DelegatedMe s)
     (TotalDelegatedLimit s) (DelegatedLimit s) (IsActive s) (CreatedEpoch s)
     (LockedFromEpoch s) (LockedUntil s) (Status s).
Definition set_Stake (v : option hexutil.Big) (s : t) : t :=
  mk (Id s) (StakerAddress s) (TotalStake s) v (DelegatedMe s)
     (TotalDelegatedLimit s) (DelegatedLimit s) (IsActive s) (CreatedEpoch s)
     (LockedFromEpoch s) (LockedUntil s) (Status s).
Definition set_DelegatedMe (v : option hexutil.Big) (s : t) : t :=
  mk (Id s) (StakerAddress s) (TotalStake s) (Stake s) v
     (TotalDelegatedLimit s) (DelegatedLimit s) (IsActive s) (CreatedEpoch s)
     (LockedFromEpoch s) (LockedUntil s) (Status s).
Definition set_TotalDelegatedLimit (v : hexutil.Big) (s : t) : t :=
  mk (Id s) (StakerAddress s) (TotalStake s) (Stake s) (DelegatedMe s)
     v (DelegatedLimit s) (IsActive s) (CreatedEpoch s)
     (LockedFromEpoch s) (LockedUntil s) (Status s).
Definition set_DelegatedLimit (v : hexutil.Big) (s : t) : t :=
  mk (Id s) (StakerAddress s) (TotalStake s) (Stake s) (DelegatedMe s)
     (TotalDelegatedLimit s) v (IsActive s) (CreatedEpoch s)
     (LockedFromEpoch s) (LockedUntil s) (Status s).
Definition set_LockedFromEpoch (v : hexutil.Uint64) (s : t) : t :=
  mk (Id s) (StakerAddress s) (TotalStake s) (Stake s) (DelegatedMe s)
     (TotalDelegatedLimit s) (DelegatedLimit s) (IsActive s) (CreatedEpoch s)
     v (LockedUntil s) (Status s).
Definition set_LockedUntil (v : hexutil.Uint64) (s : t) : t :=
  mk (Id s) (StakerAddress s) (TotalStake s) (Stake s) (DelegatedMe s)
     (TotalDelegatedLimit s) (DelegatedLimit s) (IsActive s) (CreatedEpoch s)
     (LockedFromEpoch s) v (Status s).
Definition set_Status (v : hexutil.Uint64) (s : t) : t :=
  mk (Id s) (StakerAddress s) (TotalStake s) (Stake s) (DelegatedMe s)
     (TotalDelegatedLimit s) (DelegatedLimit s) (IsActive s) (CreatedEpoch s)
     (LockedFromEpoch s) (LockedUntil s) v.
End Staker.

(** An account; [ContractTx] is the hash of the deploying transaction, [nil]
    for an account that is not a contract. *)
Module Account.
Record t : Type := mk {
  Address : common.Address;
  ContractTx : option types.Hash
}.
End Account.

Module Contract.
Record t : Type := mk {
  Address : common.Address;
  TransactionHash : types.Hash;
  Name : string;
  SourceCode : string;
  Validated : option hexutil.Uint64
}.
End Contract.

(** A page of transaction hashes with its cursors and boundary flags. *)
Module TransactionHashList.
Record t : Type := mk {
  Collection : list types.Hash;
  First : option string;
  Last : option string;
  HasNext : bool;
  HasPrevious : bool
}.
End TransactionHashList.
End types.

Import types.

(** ** Errors and results *)

(** Go's [error] values.  The facade only ever tests an error for identity
    with the sentinel [eth.ErrNoResult]; every other error is opaque. *)
Inductive error : Type :=
| ErrNoResult
| ErrTransactionNotFound
| ErrOther (msg : string).

(** [err == eth.ErrNoResult] *)
Definition is_ErrNoResult (err : error) : bool :=
  match err with
  | ErrNoResult => true
  | _ => false
  end.

(** What a call into a bridge hands back: a value with a [nil] error, or an
    error. *)
Inductive result (A : Type) : Type :=
| Ok (a : A)
| Err (err : error).
Arguments Ok {A} a.
Arguments Err {A} err.

(** ** Observable actions *)

Module logger.
Inductive Level : Type := Debug | Info | Notice | Warning | Error | Critical.
End logger.

(** One entry per log line written and per call made into a bridge, with the
    arguments of the call. *)
Inductive Event : Type :=
| Log (lvl : logger.Level) (format : string)
| CachePullTransaction (hash : Hash)
| CachePushTransaction (trx : Transaction.t)
| CachePullLastEpoch
| CachePushLastEpoch (ep : Epoch.t)
| DbAddTransaction (block : option Block.t) (trx : Transaction.t)
| DbAddContract (block : option Block.t) (trx : Transaction.t)
| NodeTransaction (hash : Hash)
| NodeCall (method : string) (arg : Z)
| NodeNewSfcContract
| SfcStakers (id : Z)
| SfcLockedStakes (id : Z)
| SfcMaxDelegatedRatio
| SfcEpochSnapshots (id : Z)
| SfcCurrentSealedEpoch
| SfcCurrentEpoch
| RepoAccountTransactions (acc : Account.t) (cursor : option string) (count : Z)
| RepoContract (addr : common.Address).

(** The collaborator an action goes to. *)
Inductive Target : Type := ToLog | ToCache | ToDb | ToNode | ToRepo.

Definition target (e : Event) : Target :=
  match e with
  | Log _ _ => ToLog
  | CachePullTransaction _ | CachePushTransaction _
  | CachePullLastEpoch | CachePushLastEpoch _ => ToCache
  | DbAddTransaction _ _ | DbAddContract _ _ => ToDb
  | NodeTransaction _ | NodeCall _ _ | NodeNewSfcContract
  | SfcStakers _ | SfcLockedStakes _ | SfcMaxDelegatedRatio
  | SfcEpochSnapshots _ | SfcCurrentSealedEpoch | SfcCurrentEpoch => ToNode
  | RepoAccountTransactions _ _ _ | RepoContract _ => ToRepo
  end.

Definition Target_eqb (a b : Target) : bool :=
  match a, b with
  | ToLog, ToLog | ToCache, ToCache | ToDb, ToDb
  | ToNode, ToNode | ToRepo, ToRepo => true
  | _, _ => false
  end.

(** The calls of a trace that went to a given collaborator, in order. *)
Definition calls (to : Target) (tr : list Event) : list Event :=
  List.filter (fun e => Target_eqb (target e) to) tr.

(** ** Computations over a bridge state

    [M S A]: run from a state [S], produce a value, the next state and the
    actions performed. *)

Definition M (S A : Type) : Type := S -> A * S * list Event.

Definition ret {S A : Type} (a : A) : M S A := fun s => (a, s, []).

Definition bind {S A B : Type} (m : M S A) (k : A -> M S B) : M S B :=
  fun s =>
    let '(a, s1, t1) := m s in
    let '(b, s2, t2) := k a s1 in
    (b, s2, t1 ++ t2).

Definition emit {S : Type} (e : Event) : M S unit := fun s => (tt, s, [e]).

(** A state-changing call into a bridge, recorded as [e]. *)
Definition call {S A : Type} (e : Event) (f : S -> S * A) : M S A :=
  fun s => let '(s', a) := f s in (a, s', [e]).

(** A read of a bridge that leaves its state alone, recorded as [e]. *)
Definition probe {S A : Type} (e : Event) (f : S -> A) : M S A :=
  fun s => (f s, s, [e]).

Definition value {S A : Type} (r : A * S * list Event) : A := fst (fst r).
Definition state {S A : Type} (r : A * S * list Event) : S := snd (fst r).
Definition trace {S A : Type} (r : A * S * list Event) : list Event := snd r.

Declare Scope go_scope.
Delimit Scope go_scope with go.
Notation "x <- m ;; k" := (bind m (fun x => k))
  (at level 100, m at next level, right associativity) : go_scope.
Notation "m ;; k" := (bind m (fun _ => k))
  (at level 100, right associativity) : go_scope.
Local Open Scope go_scope.

Definition log {S : Type} (lvl : logger.Level) (format : string) : M S unit :=
  emit (Log lvl format).

(** ** The bridges as interfaces *)

(** The in-memory cache bridge ([cache.MemBridge]).  A pull reads the store
    and yields [nil] on a miss; a push may fail. *)
Module cache.
Class MemBridge (C : Type) : Type := {
  PullTransaction : C -> Hash -> option Transaction.t;
  PushTransaction : C -> Transaction.t -> C * option error;
  PullLastEpoch : C -> option Epoch.t;
  PushLastEpoch : C -> Epoch.t -> C * option error
}.
End cache.

(** The document store bridge ([db.MongoDbBridge]). *)
Module db.
Class MongoDbBridge (D : Type) : Type := {
  AddTransaction : D -> option Block.t -> Transaction.t -> D * option error;
  AddContract : D -> option Block.t -> Transaction.t -> D * option error
}.
End db.

(** The outputs of the generated SFC contract binding ([SfcContract]) that
    the bridge reads.  Numbers are [*big.Int]; in the staker and lock outputs
    the bridge tests them for [nil]. *)
Module SfcContract.
Module Stakers.
Record t : Type := mk {
  Status : option Z;
  StakeAmount : option Z;
  DelegatedMe : option Z
}.
End Stakers.

Module LockedStakes.
Record t : Type := mk {
  FromEpoch : option Z;
  EndTime : option Z
}.
End LockedStakes.

Module EpochSnapshots.
Record t : Type := mk {
  EndTime : Z;
  Duration : Z;
  EpochFee : Z;
  TotalBaseRewardWeight : Z;
  TotalTxRewardWeight : Z;
  BaseRewardPerSecond : Z;
  StakeTotalAmount : Z;
  DelegationsTotalAmount : Z;
  TotalSupply : Z
}.
End EpochSnapshots.
End SfcContract.

(** The full node as the RPC bridge reaches it: the raw client
    ([ftm.rpc.Call]), the construction of the contract binding
    ([NewSfcContract]), the read calls of the bound contract, and the
    transaction fetch of the bridge ([FtmBridge.Transaction]), whose body is
    not among the embedded files. *)
Module lachesis.
Class Node (N : Type) : Type := {
  Transaction : N -> Hash -> N * result Transaction.t;
  Call_sfc_getStaker : N -> hexutil.Uint64 -> N * result Staker.t;
  Call_sfc_getStakerByAddress : N -> common.Address -> N * result Staker.t;
  NewSfcContract : N -> N * option error;
  Stakers : N -> Z -> N * result SfcContract.Stakers.t;
  LockedStakes : N -> Z -> N * result SfcContract.LockedStakes.t;
  MaxDelegatedRatio : N -> N * result Z;
  EpochSnapshots : N -> Z -> N * result SfcContract.EpochSnapshots.t;
  CurrentSealedEpoch : N -> N * result Z;
  CurrentEpoch : N -> N * result Z
}.
End lachesis.

(** ** Package [rpc]: the bridge to the SFC contract *)

Module rpc.
Section FtmBridge.
Context {N : Type} `{lachesis.Node N}.

(** [hexutil.MustDecodeBig("0xF4240")]: the ratio unit, 1.000.000. *)
Definition ratioUnit : Z := 0xF4240.

Definition NewSfcContract : M N (option error) :=
  call NodeNewSfcContract lachesis.NewSfcContract.

(** [FtmBridge.Transaction]: a single call to the node. *)
Definition Transaction (hash : Hash) : M N (result Transaction.t) :=
  call (NodeTransaction hash) (fun n => lachesis.Transaction n hash).

Definition CurrentEpoch : M N (hexutil.Uint64 * option error) :=
  c <- NewSfcContract ;;
  match c with
  | Some err =>
      log logger.Critical "failed to instantiate SFC contract: %v" ;;
      ret (0, Some err)
  | None =>
      r <- call SfcCurrentEpoch lachesis.CurrentEpoch ;;
      match r with
      | Err err =>
          log logger.Error "failed to get the current epoch: %v" ;;
          ret (0, Some err)
      | Ok epoch => ret (big.Uint64 epoch, None)
      end
  end.

Definition CurrentSealedEpoch : M N (hexutil.Uint64 * option error) :=
  c <- NewSfcContract ;;
  match c with
  | Some err =>
      log logger.Critical "failed to instantiate SFC contract: %v" ;;
      ret (0, Some err)
  | None =>
      r <- call SfcCurrentSealedEpoch lachesis.CurrentSealedEpoch ;;
      match r with
      | Err err =>
          log logger.Error "failed to get the current sealed epoch: %v" ;;
          ret (0, Some err)
      | Ok epoch => ret (big.Uint64 epoch, None)
      end
  end.

(** [maxDelegatedLimit]: the most that may be delegated to a staker with the
    given own stake; zero when the stake is unknown or the ratio cannot be
    read. *)
Definition maxDelegatedLimit (staked : option hexutil.Big) : M N hexutil.Big :=
  match staked with
  | None => ret 0
  | Some staked =>
      r <- call SfcMaxDelegatedRatio lachesis.MaxDelegatedRatio ;;
      match r with
      | Err err =>
          log logger.Error "can not get the delegation ratio; %s" ;;
          ret 0
      | Ok ratio =>
          let temp := staked * ratio in
          ret (big.Div temp ratioUnit)
      end
  end.

(** [stakerStatusFromSfc]: the staker after the update, and the error
    returned. *)
Definition stakerStatusFromSfc (staker : Staker.t) : M N (Staker.t * option error) :=
  log logger.Debug "updating staker info from SFC" ;;
  r <- call (SfcStakers (big.NewInt_int64 (Staker.Id staker)))
            (fun n => lachesis.Stakers n (big.NewInt_int64 (Staker.Id staker))) ;;
  match r with
  | Err err =>
      log logger.Error "failed to get the staker information from SFC: %v" ;;
      ret (staker, Some err)
  | Ok si =>
      match SfcContract.Stakers.Status si with
      | Some status =>
          let staker := Staker.set_DelegatedMe (SfcContract.Stakers.DelegatedMe si) staker in
          let staker := Staker.set_Stake (SfcContract.Stakers.StakeAmount si) staker in
          let staker := Staker.set_Status (big.Uint64 status) staker in
          match Staker.Stake staker, Staker.DelegatedMe staker with
          | Some stakeAmount, Some delegatedMe =>
              let staker := Staker.set_TotalStake (Some (delegatedMe + stakeAmount)) staker in
              limit <- maxDelegatedLimit (Staker.Stake staker) ;;
              let staker := Staker.set_TotalDelegatedLimit limit staker in
              let val := Staker.TotalDelegatedLimit staker - delegatedMe in
              ret (Staker.set_DelegatedLimit val staker, None)
          | _, _ => ret (staker, None)
          end
      | None =>
          log logger.Debug "staker info update from SFC failed, no data received" ;;
          ret (staker, None)
      end
  end.

(** [stakerLockFromSfc]: every path returns a [nil] error. *)
Definition stakerLockFromSfc (staker : Staker.t) : M N (Staker.t * option error) :=
  log logger.Debug "updating staker locking details from SFC" ;;
  r <- call (SfcLockedStakes (big.NewInt_int64 (Staker.Id staker)))
            (fun n => lachesis.LockedStakes n (big.NewInt_int64 (Staker.Id staker))) ;;
  match r with
  | Err err =>
      log logger.Error "stake lock query failed; %v" ;;
      ret (staker, None)
  | Ok lock =>
      match SfcContract.LockedStakes.FromEpoch lock,
            SfcContract.LockedStakes.EndTime lock with
      | Some fromEpoch, Some endTime =>
          let staker := Staker.set_LockedFromEpoch (big.Uint64 fromEpoch) staker in
          let staker := Staker.set_LockedUntil (big.Uint64 endTime) staker in
          ret (staker, None)
      | _, _ =>
          log logger.Error "stake lock details not available" ;;
          ret (staker, None)
      end
  end.

Definition extendStaker (staker : Staker.t) : M N (option Staker.t * option error) :=
  c <- NewSfcContract ;;
  match c with
  | Some err =>
      log logger.Critical "failed to instantiate SFC contract: %v" ;;
      ret (None, Some err)
  | None =>
      r <- stakerStatusFromSfc staker ;;
      let '(staker, err) := r in
      match err with
      | Some _ => log logger.Critical "staker status could not be updated from SFC"
      | None => ret tt
      end ;;
      r <- stakerLockFromSfc staker ;;
      let '(staker, err) := r in
      match err with
      | Some _ => log logger.Critical "staker locking could not be updated from SFC"
      | None => ret tt
      end ;;
      ret (Some staker, None)
  end.

(** [Staker]: a staker by numeric id. *)
Definition Staker (id : hexutil.Uint64) : M N (option Staker.t * option error) :=
  log logger.Debug "loading staker #%d" ;;
  r <- call (NodeCall "sfc_getStaker" id)
            (fun n => lachesis.Call_sfc_getStaker n id) ;;
  match r with
  | Err err =>
      log logger.Error "staker information could not be extracted" ;;
      ret (None, Some err)
  | Ok st =>
      log logger.Debug "staker #%d loaded" ;;
      extendStaker st
  end.

(** [StakerByAddress]: a staker by address. *)
Definition StakerByAddress (addr : common.Address) : M N (option Staker.t * option error) :=
  log logger.Debug "loading staker %s" ;;
  r <- call (NodeCall "sfc_getStakerByAddress" addr)
            (fun n => lachesis.Call_sfc_getStakerByAddress n addr) ;;
  match r with
  | Err err =>
      log logger.Error "staker information could not be extracted" ;;
      ret (None, Some err)
  | Ok st =>
      log logger.Debug "staker %s loaded" ;;
      extendStaker st
  end.

(** [Epoch]: the snapshot of an epoch, field by field. *)
Definition Epoch (id : hexutil.Uint64) : M N (Epoch.t * option error) :=
  c <- NewSfcContract ;;
  match c with
  | Some err =>
      log logger.Critical "failed to instantiate SFC contract: %v" ;;
      ret (Epoch.zero, Some err)
  | None =>
      r <- call (SfcEpochSnapshots (big.NewInt_int64 id))
                (fun n => lachesis.EpochSnapshots n (big.NewInt_int64 id)) ;;
      match r with
      | Err err =>
          log logger.Error "failed to extract epoch information: %v" ;;
          ret (Epoch.zero, Some err)
      | Ok epo =>
          ret (Epoch.mk id
                 (SfcContract.EpochSnapshots.EndTime epo)
                 (SfcContract.EpochSnapshots.Duration epo)
                 (SfcContract.EpochSnapshots.EpochFee epo)
                 (SfcContract.EpochSnapshots.TotalBaseRewardWeight epo)
                 (SfcContract.EpochSnapshots.TotalTxRewardWeight epo)
                 (SfcContract.EpochSnapshots.BaseRewardPerSecond epo)
                 (SfcContract.EpochSnapshots.StakeTotalAmount epo)
                 (SfcContract.EpochSnapshots.DelegationsTotalAmount epo)
                 (SfcContract.EpochSnapshots.TotalSupply epo),
               None)
      end
  end.

End FtmBridge.
End rpc.

(** ** Package [repository]: the facade *)

Module repository.

(** The part of the [Repository] interface that the account resolvers call. *)
Class Repository (R : Type) : Type := {
  AccountTransactions :
    R -> Account.t -> option string -> Z -> R * result TransactionHashList.t;
  Contract : R -> common.Address -> R * result Contract.t
}.

Section Proxy.
Context {C D N : Type}.
Context `{cache.MemBridge C} `{db.MongoDbBridge D} `{lachesis.Node N}.

(** The [proxy] structure: the three bridges.  Its logger is the [Log]
    entries of the trace. *)
Record proxy : Type := mkProxy {
  cache : C;
  db : D;
  rpc : N
}.

(** Running a bridge computation on the bridge held by the proxy. *)
Definition on_cache {A : Type} (m : M C A) : M proxy A :=
  fun p => let '(a, c, t) := m (cache p) in (a, mkProxy c (db p) (rpc p), t).
Definition on_db {A : Type} (m : M D A) : M proxy A :=
  fun p => let '(a, d, t) := m (db p) in (a, mkProxy (cache p) d (rpc p), t).
Definition on_rpc {A : Type} (m : M N A) : M proxy A :=
  fun p => let '(a, n, t) := m (rpc p) in (a, mkProxy (cache p) (db p) n, t).

(** [AddTransaction]: a new incoming transaction goes to the document store,
    with its contract when it deploys one.  [block] may be [nil]. *)
Definition AddTransaction (block : option Block.t) (trx : Transaction.t)
  : M proxy (option error) :=
  e <- on_db (call (DbAddTransaction block trx)
                   (fun d => db.AddTransaction d block trx)) ;;
  match e with
  | Some err => ret (Some err)
  | None =>
      match Transaction.ContractAddress trx with
      | Some _ =>
          e <- on_db (call (DbAddContract block trx)
                           (fun d => db.AddContract d block trx)) ;;
          match e with
          | Some err =>
              log logger.Critical "%v" ;;
              ret (Some err)
          | None => ret None
          end
      | None => ret None
      end
  end.

(** [Transaction]: a transaction by hash, from the cache or from the node. *)
Definition Transaction (hash : Hash)
  : M proxy (option Transaction.t * option error) :=
  log logger.Debug "requested transaction %s" ;;
  c <- on_cache (probe (CachePullTransaction hash)
                       (fun c => cache.PullTransaction c hash)) ;;
  match c with
  | Some trx =>
      log logger.Info "transaction %s loaded from cache" ;;
      ret (Some trx, None)
  | None =>
      r <- on_rpc (rpc.Transaction hash) ;;
      match r with
      | Err err =>
          if is_ErrNoResult err then
            log logger.Warning "transaction not found in the blockchain" ;;
            ret (None, Some ErrTransactionNotFound)
          else ret (None, Some err)
      | Ok trx =>
          log logger.Debug "transaction %s loaded from rpc" ;;
          match Transaction.BlockHash trx with
          | Some _ =>
              e <- on_cache (call (CachePushTransaction trx)
                                  (fun c => cache.PushTransaction c trx)) ;;
              match e with
              | Some _ => log logger.Error "can not store transaction in cache; %s"
              | None => ret tt
              end
          | None => log logger.Debug "pending transaction [%s] not cached yet"
          end ;;
          ret (Some trx, None)
      end
  end.

(** [CurrentEpoch] and [Epoch]: straight to the RPC bridge. *)
Definition CurrentEpoch : M proxy (hexutil.Uint64 * option error) :=
  on_rpc rpc.CurrentEpoch.

Definition Epoch (id : hexutil.Uint64) : M proxy (Epoch.t * option error) :=
  on_rpc (rpc.Epoch id).

(** [CurrentSealedEpoch]: the latest sealed epoch, from the cache or from the
    node. *)
Definition CurrentSealedEpoch : M proxy (option Epoch.t * option error) :=
  log logger.Debug "latest sealed epoch requested" ;;
  c <- on_cache (probe CachePullLastEpoch cache.PullLastEpoch) ;;
  match c with
  | Some ep =>
      log logger.Debug "latest sealed epoch loaded from cache" ;;
      ret (Some ep, None)
  | None =>
      r <- on_rpc rpc.CurrentSealedEpoch ;;
      let '(id, err) := r in
      match err with
      | Some err =>
          log logger.Error "can not get the id of the last sealed epoch; %s" ;;
          ret (None, Some err)
      | None =>
          r <- on_rpc (rpc.Epoch id) ;;
          let '(ep, err) := r in
          match err with
          | Some err =>
              log logger.Error "can not get data of the last sealed epoch; %s" ;;
              ret (None, Some err)
          | None =>
              e <- on_cache (call (CachePushLastEpoch ep)
                                  (fun c => cache.PushLastEpoch c ep)) ;;
              match e with
              | Some _ => log logger.Error "%v"
              | None => ret tt
              end ;;
              log logger.Debug "epoch [%s] loaded from sfc" ;;
              ret (Some ep, None)
          end
      end
  end.

End Proxy.
Arguments proxy : clear implicits.
End repository.

(** ** Package [resolvers]: the account resolver *)

Module resolvers.


(** Modelled from the spec: [listLimitCount], the helper that limits the
    requested count; its body is not among the embedded files.  The count is
    signed, its sign is the scan direction, and it is clamped to the
    per-collection maximum in either direction. *)
Definition listLimitCount (count : Z) (limit : Z) : Z :=
  if limit <? count then limit
  else if count <? - limit then - limit
  else count.

Section Account.
Context {R : Type} `{repository.Repository R}.
(** The resolvable wrappers built around the values the repository returns;
    their constructors are not among the embedded files. *)
Context {TransactionList Contract : Type}.
Context (NewTransactionList : TransactionHashList.t -> TransactionList).
Context (NewContract : Contract.t -> Contract).


(** [Account.Contract]: the contract detail of the account, [nil] when the
    account is not a contract. *)
Definition Account_Contract (acc : Account.t) : M R (option Contract * option error) :=
  match Account.ContractTx acc with
  | None => ret (None, None)
  | Some _ =>
      r <- call (RepoContract (Account.Address acc))
                (fun repo => repository.Contract repo (Account.Address acc)) ;;
      match r with
      | Err err => ret (None, Some err)
      | Ok con => ret (Some (NewContract con), None)
      end
  end.

End Account.
End resolvers.

(** ** Reference bridges

    Simple implementations of the bridge interfaces, on which the facade can
    be run on concrete inputs. *)

(** A cache bridge that holds single entities by key (a transaction by its
    hash, the latest sealed epoch): a pull answers present or absent, a push
    succeeds or fails.  A cache that is [full] refuses every push. *)
Module memcache.
Record t : Type := mk {
  transactions : gmap Z Transaction.t;
  lastEpoch : option Epoch.t;
  full : bool
}.

Definition empty : t := mk ∅ None false.

Definition PullTransaction (c : t) (hash : Hash) : option Transaction.t :=
  transactions c !! hash.

Definition PushTransaction (c : t) (trx : Transaction.t) : t * option error :=
  if full c then (c, Some (ErrOther "cache is full"))
  else (mk (<[Transaction.Hash trx := trx]> (transactions c)) (lastEpoch c) false, None).

Definition PullLastEpoch (c : t) : option Epoch.t := lastEpoch c.

Definition PushLastEpoch (c : t) (ep : Epoch.t) : t * option error :=
  if full c then (c, Some (ErrOther "cache is full"))
  else (mk (transactions c) (Some ep) false, None).

#[global] Instance bridge : cache.MemBridge t := {|
  cache.PullTransaction := PullTransaction;
  cache.PushTransaction := PushTransaction;
  cache.PullLastEpoch := PullLastEpoch;
  cache.PushLastEpoch := PushLastEpoch
|}.
End memcache.

(** A document store that appends transaction and contract records under
    their primary key (the transaction hash, the contract address), so that
    appending a record again does not duplicate it.  Either collection can be
    [down], and then refuses the append. *)
Module docstore.
Record t : Type := mk {
  transactions : gmap Z Transaction.t;
  contracts : gmap Z Hash;
  transactionsDown : bool;
  contractsDown : bool
}.

Definition empty : t := mk ∅ ∅ false false.

Definition AddTransaction (d : t) (block : option Block.t) (trx : Transaction.t)
  : t * option error :=
  if transactionsDown d then (d, Some (ErrOther "can not insert transaction"))
  else (mk (<[Transaction.Hash trx := trx]> (transactions d)) (contracts d)
           (transactionsDown d) (contractsDown d), None).

Definition AddContract (d : t) (block : option Block.t) (trx : Transaction.t)
  : t * option error :=
  if contractsDown d then (d, Some (ErrOther "can not insert contract"))
  else
    match Transaction.ContractAddress trx with
    | Some addr =>
        (mk (transactions d) (<[addr := Transaction.Hash trx]> (contracts d))
            (transactionsDown d) (contractsDown d), None)
    | None => (d, None)
    end.

#[global] Instance bridge : db.MongoDbBridge t := {|
  db.AddTransaction := AddTransaction;
  db.AddContract := AddContract
|}.
End docstore.

(** A node that answers every call from a fixed script and keeps no state of
    its own. *)
Module scripted.
Record t : Type := mk {
  transaction : Hash -> result Transaction.t;
  staker : result Staker.t;
  binding : option error;
  stakers : result SfcContract.Stakers.t;
  lockedStakes : result SfcContract.LockedStakes.t;
  maxDelegatedRatio : result Z;
  epochSnapshots : Z -> result SfcContract.EpochSnapshots.t;
  currentSealedEpoch : result Z;
  currentEpoch : result Z
}.

#[global] Instance node : lachesis.Node t := {|
  lachesis.Transaction n hash := (n, transaction n hash);
  lachesis.Call_sfc_getStaker n _ := (n, staker n);
  lachesis.Call_sfc_getStakerByAddress n _ := (n, staker n);
  lachesis.NewSfcContract n := (n, binding n);
  lachesis.Stakers n _ := (n, stakers n);
  lachesis.LockedStakes n _ := (n, lockedStakes n);
  lachesis.MaxDelegatedRatio n := (n, maxDelegatedRatio n);
  lachesis.EpochSnapshots n id := (n, epochSnapshots n id);
  lachesis.CurrentSealedEpoch n := (n, currentSealedEpoch n);
  lachesis.CurrentEpoch n := (n, currentEpoch n)
|}.

(** A repository that answers the account resolvers from a fixed script. *)
Record repo : Type := mkRepo {
  accountTransactions : result TransactionHashList.t;
  contract : result Contract.t
}.

#[global] Instance repository : repository.Repository repo := {|
  repository.AccountTransactions r _ _ _ := (r, accountTransactions r);
  repository.Contract r _ := (r, contract r)
|}.
End scripted.

(** Concrete inputs: transactions, contract outputs and a node script. *)
Module sample.
Definition confirmed : Transaction.t :=
  Transaction.mk 0xa1 7 0x10 (Some 0x20) None 1000 (Some 0xb1) (Some 12) (Some 0) (Some 1).

Definition pending : Transaction.t :=
  Transaction.mk 0xa2 8 0x10 (Some 0x20) None 5 None None None None.

Definition deployment : Transaction.t :=
  Transaction.mk 0xa3 9 0x10 None (Some 0xc0) 0 (Some 0xb1) (Some 12) (Some 1) (Some 1).

Definition block : Block.t := Block.mk 12 0xb1 0xb0 1600000000 8000000 21000.

Definition baseStaker : Staker.t :=
  Staker.mk 1 0x51 None None None 0 0 true 3 0 0 0.

Definition snapshot : SfcContract.EpochSnapshots.t :=
  SfcContract.EpochSnapshots.mk 1600000000 14400 7 11 13 17 19 23 29.

(** Own stake 3.000.000 with 50.000.000 delegated, at a ratio of 15: the
    staker is over-delegated. *)
Definition node : scripted.t := {|
  scripted.transaction h :=
    if h =? 0xa1 then Ok confirmed
    else if h =? 0xa2 then Ok pending
    else if h =? 0xa3 then Err ErrNoResult
    else Err (ErrOther "connection refused");
  scripted.staker := Ok baseStaker;
  scripted.binding := None;
  scripted.stakers :=
    Ok (SfcContract.Stakers.mk (Some 0) (Some 3000000) (Some 50000000));
  scripted.lockedStakes :=
    Ok (SfcContract.LockedStakes.mk (Some 40) (Some 1700000000));
  scripted.maxDelegatedRatio := Ok 15000000;
  scripted.epochSnapshots _ := Ok snapshot;
  scripted.currentSealedEpoch := Ok 41;
  scripted.currentEpoch := Ok 42
|}.

(** The same node when the delegation ratio cannot be read. *)
Definition nodeNoRatio : scripted.t := {|
  scripted.transaction := scripted.transaction node;
  scripted.staker := Ok baseStaker;
  scripted.binding := None;
  scripted.stakers := scripted.stakers node;
  scripted.lockedStakes := scripted.lockedStakes node;
  scripted.maxDelegatedRatio := Err (ErrOther "execution reverted");
  scripted.epochSnapshots := scripted.epochSnapshots node;
  scripted.currentSealedEpoch := scripted.currentSealedEpoch node;
  scripted.currentEpoch := scripted.currentEpoch node
|}.

(** The same node when the lock window cannot be read. *)
Definition nodeNoLock : scripted.t := {|
  scripted.transaction := scripted.transaction node;
  scripted.staker := Ok baseStaker;
  scripted.binding := None;
  scripted.stakers := scripted.stakers node;
  scripted.lockedStakes := Err (ErrOther "execution reverted");
  scripted.maxDelegatedRatio := scripted.maxDelegatedRatio node;
  scripted.epochSnapshots := scripted.epochSnapshots node;
  scripted.currentSealedEpoch := scripted.currentSealedEpoch node;
  scripted.currentEpoch := scripted.currentEpoch node
|}.

(** A facade with an empty cache and an empty store over [node]. *)
Definition fresh : repository.proxy memcache.t docstore.t scripted.t :=
  repository.mkProxy memcache.empty docstore.empty node.

(** The same facade when the cache refuses every put. *)
Definition cacheFull : repository.proxy memcache.t docstore.t scripted.t :=
  repository.mkProxy (memcache.mk ∅ None true) docstore.empty node.

(** The same facade when the store takes transactions and refuses contracts. *)
Definition contractsDown : repository.proxy memcache.t docstore.t scripted.t :=
  repository.mkProxy memcache.empty (docstore.mk ∅ ∅ false true) node.

Definition account : Account.t := Account.mk 0x10 None.
Definition contractAccount : Account.t := Account.mk 0xc0 (Some 0xa3).

Definition page : TransactionHashList.t :=
  TransactionHashList.mk [0xa1; 0xa2] (Some "a1") (Some "a2") true false.

Definition repo : scripted.repo :=
  scripted.mkRepo (Ok page) (Ok (Contract.mk 0xc0 0xa3 "Token" "" None)).
End sample.

(** ** More of the bridge, of the facade and of the resolvers

    The functions below call operations of the node and of the repository
    that the functions above do not use.  Those calls are recorded as actions
    of their own, next to the events above. *)

Inductive Action : Type :=
| Base (e : Event)
| CallSendTransaction (tx : list Byte.byte)
| CallVersion
| CallStakersLastID
| CallStakersNum
| CallAccount (addr : common.Address)
| CallAccountBalance (acc : Account.t)
| CallAccountNonce (acc : Account.t).

Definition destination (a : Action) : Target :=
  match a with
  | Base e => target e
  | CallSendTransaction _ | CallVersion | CallStakersLastID | CallStakersNum => ToNode
  | CallAccount _ | CallAccountBalance _ | CallAccountNonce _ => ToRepo
  end.

(** The actions of a trace that went to a given collaborator, in order. *)
Definition actions (to : Target) (tr : list Action) : list Action :=
  List.filter (fun a => Target_eqb (destination a) to) tr.

(** [X S A]: as [M S A], with actions for a trace. *)
Definition X (S A : Type) : Type := S -> A * S * list Action.

Definition xret {S A : Type} (a : A) : X S A := fun s => (a, s, []).

Definition xbind {S A B : Type} (m : X S A) (k : A -> X S B) : X S B :=
  fun s =>
    let '(a, s1, t1) := m s in
    let '(b, s2, t2) := k a s1 in
    (b, s2, t1 ++ t2).

Definition xcall {S A : Type} (a : Action) (f : S -> S * A) : X S A :=
  fun s => let '(s', r) := f s in (r, s', [a]).

Definition xlog {S : Type} (lvl : logger.Level) (format : string) : X S unit :=
  fun s => (tt, s, [Base (Log lvl format)]).

(** A computation of the first kind, run as it is. *)
Definition lift {S A : Type} (m : M S A) : X S A :=
  fun s => let '(a, s', t) := m s in (a, s', List.map Base t).

Definition xvalue {S A : Type} (r : A * S * list Action) : A := fst (fst r).
Definition xstate {S A : Type} (r : A * S * list Action) : S := snd (fst r).
Definition xtrace {S A : Type} (r : A * S * list Action) : list Action := snd r.

Declare Scope act_scope.
Delimit Scope act_scope with act.
Notation "x <- m ;; k" := (xbind m (fun x => k))
  (at level 100, m at next level, right associativity) : act_scope.
Notation "m ;; k" := (xbind m (fun _ => k))
  (at level 100, right associativity) : act_scope.

(** More of the full node: the submission of a raw transaction
    ([FtmBridge.SendTransaction], whose body is not among the embedded files)
    and three more reads of the bound contract. *)
Module opera.
Class Node (N : Type) : Type := {
  SendTransaction : N -> list Byte.byte -> N * result Hash;
  Version : N -> N * result (Byte.byte * Byte.byte * Byte.byte);
  StakersLastID : N -> N * result Z;
  StakersNum : N -> N * result Z
}.
End opera.

(** *** Package [rpc], continued: methods of [FtmBridge] *)

Module FtmBridge.
Section Sfc.
Context {N : Type} `{lachesis.Node N} `{opera.Node N}.
Local Open Scope act_scope.

(** [uint64(b)] for a byte. *)
Definition uint64 (b : Byte.byte) : Z := Z.of_N (Byte.to_N b).

(** [x << k] on [uint64]. *)
Definition shl64 (x k : Z) : Z := Z.shiftl x k mod 2 ^ 64.

(** [SfcVersion]: the three version bytes of the contract as one number,
    the most significant byte first. *)
Definition SfcVersion : X N (hexutil.Uint64 * option error) :=
  c <- lift rpc.NewSfcContract ;;
  match c with
  | Some err =>
      xlog logger.Critical "failed to instantiate SFC contract: %v" ;;
      xret (0, Some err)
  | None =>
      r <- xcall CallVersion opera.Version ;;
      match r with
      | Err err =>
          xlog logger.Critical "failed to get the SFC version; %v" ;;
          xret (0, Some err)
      | Ok (v0, v1, v2) =>
          xret (Z.lor (Z.lor (shl64 (uint64 v0) 16) (shl64 (uint64 v1) 8))
                      (uint64 v2),
                None)
      end
  end.

(** [LastStakerId]: the last staker id. *)
Definition LastStakerId : X N (hexutil.Uint64 * option error) :=
  c <- lift rpc.NewSfcContract ;;
  match c with
  | Some err =>
      xlog logger.Critical "failed to instantiate SFC contract: %v" ;;
      xret (0, Some err)
  | None =>
      r <- xcall CallStakersLastID opera.StakersLastID ;;
      match r with
      | Err err =>
          xlog logger.Error "failed to get the last staker ID: %v" ;;
          xret (0, Some err)
      | Ok sl => xret (big.Uint64 sl, None)
      end
  end.

(** [StakersNum]: the number of stakers. *)
Definition StakersNum : X N (hexutil.Uint64 * option error) :=
  c <- lift rpc.NewSfcContract ;;
  match c with
  | Some err =>
      xlog logger.Critical "failed to instantiate SFC contract: %v" ;;
      xret (0, Some err)
  | None =>
      r <- xcall CallStakersNum opera.StakersNum ;;
      match r with
      | Err err =>
          xlog logger.Error "failed to get the current number of stakers: %v" ;;
          xret (0, Some err)
      | Ok sn => xret (big.Uint64 sn, None)
      end
  end.
End Sfc.
End FtmBridge.

(** *** Package [repository], continued: methods of [proxy] *)

Module proxy.
Section Submit.
Context {C D N : Type}.
Context `{cache.MemBridge C} `{db.MongoDbBridge D}.
Context `{lachesis.Node N} `{opera.Node N}.
Local Open Scope act_scope.

Definition on_rpc {A : Type} (m : X N A) : X (repository.proxy C D N) A :=
  fun p =>
    let '(a, n, t) := m (repository.rpc p) in
    (a, repository.mkProxy (repository.cache p) (repository.db p) n, t).

(** [SendTransaction]: submit a raw signed transaction, then fetch it by the
    hash the node answered.  The cache is left out on purpose. *)
Definition SendTransaction (tx : list Byte.byte)
  : X (repository.proxy C D N) (option Transaction.t * option error) :=
  xlog logger.Debug "requested transaction submit for %s" ;;
  r <- on_rpc (xcall (CallSendTransaction tx)
                     (fun n => opera.SendTransaction n tx)) ;;
  match r with
  | Err err =>
      xlog logger.Error "can not send transaction to block chain; %s" ;;
      xret (None, Some err)
  | Ok hash =>
      r <- lift (repository.on_rpc (rpc.Transaction hash)) ;;
      match r with
      | Err err =>
          if is_ErrNoResult err then
            xlog logger.Warning "transaction not found in the blockchain" ;;
            xret (None, Some ErrTransactionNotFound)
          else xret (None, Some err)
      | Ok trx =>
          xlog logger.Debug "transaction %s created and found" ;;
          xret (Some trx, None)
      end
  end.

(** [SfcVersion], [LastStakerId], [StakersNum]: straight to the RPC bridge. *)
Definition SfcVersion : X (repository.proxy C D N) (hexutil.Uint64 * option error) :=
  on_rpc FtmBridge.SfcVersion.

Definition LastStakerId : X (repository.proxy C D N) (hexutil.Uint64 * option error) :=
  on_rpc FtmBridge.LastStakerId.

Definition StakersNum : X (repository.proxy C D N) (hexutil.Uint64 * option error) :=
  on_rpc FtmBridge.StakersNum.
End Submit.
End proxy.

(** *** Package [resolvers], continued: the resolvable account *)

(** The part of the [Repository] interface behind an account, its balance
    and its nonce. *)
Module Repository.
Class Accounts (R : Type) : Type := {
  Account : R -> common.Address -> R * result Account.t;
  AccountBalance : R -> Account.t -> R * result hexutil.Big;
  AccountNonce : R -> Account.t -> R * result hexutil.Uint64
}.
End Repository.

Module AccountResolver.
Section Resolver.
Context {R : Type} `{Repository.Accounts R}.
Local Open Scope act_scope.

(** The resolvable account: the repository it reads from, the balance it
    remembers ([rfBalance], [nil] until the first successful read) and the
    account itself.  The other remembered fields of the structure are not
    used by the methods embedded here. *)
Record t : Type := mk {
  repo : R;
  rfBalance : option hexutil.Big;
  account : Account.t
}.

(** [NewAccount] *)
Definition NewAccount (acc : Account.t) (repo : R) : t := mk repo None acc.

Definition on_repo {A : Type} (m : X R A) : X t A :=
  fun a =>
    let '(r, repo', tr) := m (repo a) in
    (r, mk repo' (rfBalance a) (account a), tr).

(** [rootResolver.Account]: the account at an address, over the repository
    of the root resolver. *)
Definition Account (addr : common.Address) : X R (option t * option error) :=
  r <- xcall (CallAccount addr) (fun repo => Repository.Account repo addr) ;;
  match r with
  | Err err =>
      xlog logger.Error "could not get the specified account" ;;
      xret (None, Some err)
  | Ok acc => fun repo => (Some (NewAccount acc repo), None, repo, [])
  end.

(** [Account.Balance]: the balance, read once and remembered. *)
Definition Balance : X t (hexutil.Big * option error) :=
  fun a =>
    match rfBalance a with
    | None =>
        (r <- on_repo (xcall (CallAccountBalance (account a))
                             (fun repo => Repository.AccountBalance repo (account a))) ;;
         match r with
         | Err err => xret (0, Some err)
         | Ok bal => fun a => (bal, None, mk (repo a) (Some bal) (account a), [])
         end) a
    | Some bal => (bal, None, a, [])
    end.

(** [Account.TxCount]: the nonce, read from the repository every time. *)
Definition TxCount : X t (hexutil.Uint64 * option error) :=
  fun a =>
    (r <- on_repo (xcall (CallAccountNonce (account a))
                         (fun repo => Repository.AccountNonce repo (account a))) ;;
     match r with
     | Err err => xret (0, Some err)
     | Ok bal => xret (bal, None)
     end) a.
End Resolver.
Arguments t : clear implicits.
End AccountResolver.

(** Reference bridges for the operations above. *)
Module scriptedOpera.
Record t : Type := mk {
  base : scripted.t;
  sendTransaction : result Hash;
  version : result (Byte.byte * Byte.byte * Byte.byte);
  stakersLastID : result Z;
  stakersNum : result Z
}.

#[global] Instance node : lachesis.Node t := {|
  lachesis.Transaction n hash := (n, scripted.transaction (base n) hash);
  lachesis.Call_sfc_getStaker n _ := (n, scripted.staker (base n));
  lachesis.Call_sfc_getStakerByAddress n _ := (n, scripted.staker (base n));
  lachesis.NewSfcContract n := (n, scripted.binding (base n));
  lachesis.Stakers n _ := (n, scripted.stakers (base n));
  lachesis.LockedStakes n _ := (n, scripted.lockedStakes (base n));
  lachesis.MaxDelegatedRatio n := (n, scripted.maxDelegatedRatio (base n));
  lachesis.EpochSnapshots n id := (n, scripted.epochSnapshots (base n) id);
  lachesis.CurrentSealedEpoch n := (n, scripted.currentSealedEpoch (base n));
  lachesis.CurrentEpoch n := (n, scripted.currentEpoch (base n))
|}.

#[global] Instance more : opera.Node t := {|
  opera.SendTransaction n _ := (n, sendTransaction n);
  opera.Version n := (n, version n);
  opera.StakersLastID n := (n, stakersLastID n);
  opera.StakersNum n := (n, stakersNum n)
|}.

(** A repository that answers the resolvable account from a fixed script. *)
Record accounts : Type := mkAccounts {
  accountAt : result Account.t;
  balance : result hexutil.Big;
  nonce : result hexutil.Uint64
}.

#[global] Instance repository : Repository.Accounts accounts := {|
  Repository.Account r _ := (r, accountAt r);
  Repository.AccountBalance r _ := (r, balance r);
  Repository.AccountNonce r _ := (r, nonce r)
|}.
End scriptedOpera.

Module sampleOpera.
(** Version 1.0.2 of the contract, in ASCII digits; the node answers a
    submission with the hash of the confirmed sample transaction. *)
Definition node : scriptedOpera.t :=
  scriptedOpera.mk sample.node (Ok 0xa1)
    (Ok (Byte.x31, Byte.x30, Byte.x32)) (Ok 25) (Ok 21).

(** The node when it refuses the submission. *)
Definition nodeRefusing : scriptedOpera.t :=
  scriptedOpera.mk sample.node (Err (ErrOther "nonce too low"))
    (Ok (Byte.x31, Byte.x30, Byte.x32)) (Ok 25) (Ok 21).

Definition fresh : repository.proxy memcache.t docstore.t scriptedOpera.t :=
  repository.mkProxy memcache.empty docstore.empty node.

Definition refusing : repository.proxy memcache.t docstore.t scriptedOpera.t :=
  repository.mkProxy memcache.empty docstore.empty nodeRefusing.

Definition accounts : scriptedOpera.accounts :=
  scriptedOpera.mkAccounts (Ok sample.account) (Ok 7000) (Ok 3).

Definition accountsNoBalance : scriptedOpera.accounts :=
  scriptedOpera.mkAccounts (Ok sample.account) (Err (ErrOther "timeout")) (Ok 3).

(** The sample node when the id of the sealed epoch cannot be read. *)
Definition nodeNoSealedId : scripted.t := {|
  scripted.transaction := scripted.transaction sample.node;
  scripted.staker := Ok sample.baseStaker;
  scripted.binding := None;
  scripted.stakers := scripted.stakers sample.node;
  scripted.lockedStakes := scripted.lockedStakes sample.node;
  scripted.maxDelegatedRatio := scripted.maxDelegatedRatio sample.node;
  scripted.epochSnapshots := scripted.epochSnapshots sample.node;
  scripted.currentSealedEpoch := Err (ErrOther "execution reverted");
  scripted.currentEpoch := scripted.currentEpoch sample.node
|}.

(** The sample node when no epoch snapshot can be read. *)
Definition nodeNoSnapshot : scripted.t := {|
  scripted.transaction := scripted.transaction sample.node;
  scripted.staker := Ok sample.baseStaker;
  scripted.binding := None;
  scripted.stakers := scripted.stakers sample.node;
  scripted.lockedStakes := scripted.lockedStakes sample.node;
  scripted.maxDelegatedRatio := scripted.maxDelegatedRatio sample.node;
  scripted.epochSnapshots _ := Err (ErrOther "execution reverted");
  scripted.currentSealedEpoch := scripted.currentSealedEpoch sample.node;
  scripted.currentEpoch := scripted.currentEpoch sample.node
|}.

(** The sample node when the staker record has a status and an own stake
    and no delegated stake. *)
Definition nodePartialRecord : scripted.t := {|
  scripted.transaction := scripted.transaction sample.node;
  scripted.staker := Ok sample.baseStaker;
  scripted.binding := None;
  scripted.stakers := Ok (SfcContract.Stakers.mk (Some 256) (Some 3000000) None);
  scripted.lockedStakes := scripted.lockedStakes sample.node;
  scripted.maxDelegatedRatio := scripted.maxDelegatedRatio sample.node;
  scripted.epochSnapshots := scripted.epochSnapshots sample.node;
  scripted.currentSealedEpoch := scripted.currentSealedEpoch sample.node;
  scripted.currentEpoch := scripted.currentEpoch sample.node
|}.



Definition noSealedId : repository.proxy memcache.t docstore.t scripted.t :=
  repository.mkProxy memcache.empty docstore.empty nodeNoSealedId.

Definition noSnapshot : repository.proxy memcache.t docstore.t scripted.t :=
  repository.mkProxy memcache.empty docstore.empty nodeNoSnapshot.
End sampleOpera.

(** ** Vocabulary of the statements *)

Section Lookups.
Context {C D N : Type}.
Context `{cache.MemBridge C} `{db.MongoDbBridge D} `{lachesis.Node N}.

(** The facade after [k] successive lookups of the same transaction hash. *)
Fixpoint after_lookups (k : nat) (hash : Hash) (p : repository.proxy C D N)
  : repository.proxy C D N :=
  match k with
  | O => p
  | S k => state (repository.Transaction hash (after_lookups k hash p))
  end.

(** From the state [n0] on, the node answers every fetch of [hash] with a
    transaction that is still pending: [n0] lies in a set of node states that
    such fetches do not leave. *)
Definition stays_pending (hash : Hash) (n0 : N) : Prop :=
  exists Inv : N -> Prop,
    Inv n0
    /\ forall n, Inv n ->
         exists n' trx,
           lachesis.Transaction n hash = (n', Ok trx)
           /\ Transaction.BlockHash trx = None
           /\ Inv n'.
End Lookups.

(** The lock window is available: the call succeeded and both the start
    epoch and the end time are there. *)
Definition lock_available (r : result SfcContract.LockedStakes.t) : bool :=
  match r with
  | Ok lock =>
      match SfcContract.LockedStakes.FromEpoch lock,
            SfcContract.LockedStakes.EndTime lock with
      | Some _, Some _ => true
      | _, _ => false
      end
  | Err _ => false
  end.

(** The staker reply of the contract is complete: the call succeeded and the
    status, the own stake and the delegated stake are all there. *)
Definition staker_complete (r : result SfcContract.Stakers.t) : bool :=
  match r with
  | Ok si =>
      match SfcContract.Stakers.Status si, SfcContract.Stakers.StakeAmount si,
            SfcContract.Stakers.DelegatedMe si with
      | Some _, Some _, Some _ => true
      | _, _, _ => false
      end
  | Err _ => false
  end.

(** * Properties *)

(** Unfolding a run of the facade down to the calls into the bridges. *)
Ltac unfold_run :=
  unfold repository.Transaction, repository.CurrentSealedEpoch,
    repository.Epoch, repository.CurrentEpoch, repository.AddTransaction,
    repository.on_cache, repository.on_db, repository.on_rpc,
    rpc.Transaction, bind, call, probe, log, emit, ret, value, state, trace;
  simpl.

(** Unfolding a run of the RPC bridge down to the calls to the node. *)
Ltac unfold_bridge :=
  unfold rpc.Staker, rpc.StakerByAddress, rpc.extendStaker,
    rpc.stakerStatusFromSfc, rpc.stakerLockFromSfc, rpc.maxDelegatedLimit,
    rpc.Epoch, rpc.CurrentSealedEpoch, rpc.CurrentEpoch, rpc.NewSfcContract,
    bind, call, probe, log, emit, ret, value, state, trace;
  simpl.

Lemma calls_app to (t1 t2 : list Event) :
  calls to (t1 ++ t2) = calls to t1 ++ calls to t2.
Proof. unfold calls. apply List.filter_app. Qed.

Section Bridge.
Context {N : Type} `{lachesis.Node N}.
Implicit Types (n : N) (id : hexutil.Uint64).

(** The RPC bridge never reaches for the cache. *)
Lemma rpc_CurrentSealedEpoch_no_cache n :
  calls ToCache (trace (rpc.CurrentSealedEpoch n)) = [].
Proof.
  unfold_bridge.
  destruct (lachesis.NewSfcContract n) as [n1 [e|]]; simpl; [reflexivity|].
  destruct (lachesis.CurrentSealedEpoch n1) as [n2 [v|e]]; reflexivity.
Qed.

Lemma rpc_CurrentEpoch_no_cache n :
  calls ToCache (trace (rpc.CurrentEpoch n)) = [].
Proof.
  unfold_bridge.
  destruct (lachesis.NewSfcContract n) as [n1 [e|]]; simpl; [reflexivity|].
  destruct (lachesis.CurrentEpoch n1) as [n2 [v|e]]; reflexivity.
Qed.

Lemma rpc_Epoch_no_cache id n :
  calls ToCache (trace (rpc.Epoch id n)) = [].
Proof.
  unfold_bridge.
  destruct (lachesis.NewSfcContract n) as [n1 [e|]]; simpl; [reflexivity|].
  destruct (lachesis.EpochSnapshots n1 _) as [n2 [v|e]]; reflexivity.
Qed.

(** Every epoch read of the bridge starts by binding the contract. *)
Lemma rpc_Epoch_binds id n :
  exists t, trace (rpc.Epoch id n) = NodeNewSfcContract :: t.
Proof.
  unfold_bridge.
  destruct (lachesis.NewSfcContract n) as [n1 [e|]]; simpl; [eauto|].
  destruct (lachesis.EpochSnapshots n1 _) as [n2 [v|e]]; simpl; eauto.
Qed.
End Bridge.

Section Facade.
Context {C D N : Type}.
Context `{cache.MemBridge C} `{db.MongoDbBridge D} `{lachesis.Node N}.
Implicit Types (p : repository.proxy C D N) (hash : Hash).

Lemma Transaction_hit p hash trx :
  cache.PullTransaction (repository.cache p) hash = Some trx ->
  repository.Transaction hash p =
    (Some trx, None, p,
     [Log logger.Debug "requested transaction %s";
      CachePullTransaction hash;
      Log logger.Info "transaction %s loaded from cache"]).
Proof.
  intros Hpull. unfold_run. rewrite Hpull. simpl. destruct p; reflexivity.
Qed.

Lemma Transaction_miss_error p hash n' err :
  cache.PullTransaction (repository.cache p) hash = None ->
  lachesis.Transaction (repository.rpc p) hash = (n', Err err) ->
  repository.Transaction hash p =
    (None,
     Some (if is_ErrNoResult err then ErrTransactionNotFound else err),
     repository.mkProxy (repository.cache p) (repository.db p) n',
     [Log logger.Debug "requested transaction %s";
      CachePullTransaction hash;
      NodeTransaction hash]
     ++ (if is_ErrNoResult err
         then [Log logger.Warning "transaction not found in the blockchain"]
         else [])).
Proof.
  intros Hpull Hrpc. unfold_run. rewrite Hpull. simpl. rewrite Hrpc. simpl.
  destruct (is_ErrNoResult err); reflexivity.
Qed.

Lemma Transaction_miss_fetched p hash n' trx :
  cache.PullTransaction (repository.cache p) hash = None ->
  lachesis.Transaction (repository.rpc p) hash = (n', Ok trx) ->
  repository.Transaction hash p =
    (Some trx, None,
     repository.mkProxy
       (match Transaction.BlockHash trx with
        | Some _ => fst (cache.PushTransaction (repository.cache p) trx)
        | None => repository.cache p
        end)
       (repository.db p) n',
     [Log logger.Debug "requested transaction %s";
      CachePullTransaction hash;
      NodeTransaction hash;
      Log logger.Debug "transaction %s loaded from rpc"]
     ++ match Transaction.BlockHash trx with
        | Some _ =>
            CachePushTransaction trx
            :: match snd (cache.PushTransaction (repository.cache p) trx) with
               | Some _ => [Log logger.Error "can not store transaction in cache; %s"]
               | None => []
               end
        | None => [Log logger.Debug "pending transaction [%s] not cached yet"]
        end).
Proof.
  intros Hpull Hrpc. unfold_run. rewrite Hpull. simpl. rewrite Hrpc. simpl.
  destruct (Transaction.BlockHash trx); simpl; [|reflexivity].
  destruct (cache.PushTransaction (repository.cache p) trx) as [c' [e|]];
    reflexivity.
Qed.
Lemma after_lookups_pending (Inv : N -> Prop) p hash k :
  (forall n, Inv n ->
     exists n' trx,
       lachesis.Transaction n hash = (n', Ok trx)
       /\ Transaction.BlockHash trx = None
       /\ Inv n') ->
  Inv (repository.rpc p) ->
  cache.PullTransaction (repository.cache p) hash = None ->
  Inv (repository.rpc (after_lookups k hash p))
  /\ repository.cache (after_lookups k hash p) = repository.cache p.
Proof.
  intros Hstep Hinv Hmiss. induction k as [|k [IHinv IHcache]]; [split; trivial|].
  cbn [after_lookups].
  destruct (Hstep _ IHinv) as (n' & trx & Hrpc & Hblock & Hinv').
  rewrite (Transaction_miss_fetched _ hash n' trx); [|congruence|exact Hrpc].
  rewrite Hblock. split; [exact Hinv'|exact IHcache].
Qed.

(** C1. A lookup of a transaction by hash is served from the cache without
    any call to the node when the cache holds it.  On a miss with a
    successful fetch the transaction is returned, the node is called once, and
    the transaction is pushed to the cache exactly when its block hash is not
    nil; a pending transaction leaves the cache as it was, so that every
    further lookup of a transaction that stays pending calls the node again. *)
Theorem Transaction_cache_aside p hash :
  (forall trx,
      cache.PullTransaction (repository.cache p) hash = Some trx ->
      let r := repository.Transaction hash p in
      value r = (Some trx, None)
      /\ state r = p
      /\ calls ToNode (trace r) = []
      /\ calls ToCache (trace r) = [CachePullTransaction hash])
  /\ (forall n' trx,
      cache.PullTransaction (repository.cache p) hash = None ->
      lachesis.Transaction (repository.rpc p) hash = (n', Ok trx) ->
      let r := repository.Transaction hash p in
      value r = (Some trx, None)
      /\ calls ToNode (trace r) = [NodeTransaction hash]
      /\ calls ToCache (trace r) =
           CachePullTransaction hash
           :: match Transaction.BlockHash trx with
              | Some _ => [CachePushTransaction trx]
              | None => []
              end
      /\ repository.cache (state r) =
           match Transaction.BlockHash trx with
           | Some _ => fst (cache.PushTransaction (repository.cache p) trx)
           | None => repository.cache p
           end)
  /\ (stays_pending hash (repository.rpc p) ->
      cache.PullTransaction (repository.cache p) hash = None ->
      forall k,
        let r := repository.Transaction hash (after_lookups k hash p) in
        calls ToNode (trace r) = [NodeTransaction hash]
        /\ calls ToCache (trace r) = [CachePullTransaction hash]).
Proof.
  split; [|split].
  - intros trx Hpull r. subst r. rewrite (Transaction_hit _ _ _ Hpull).
    repeat split.
  - intros n' trx Hpull Hrpc r. subst r.
    rewrite (Transaction_miss_fetched _ _ _ _ Hpull Hrpc).
    unfold value, state, trace. simpl.
    destruct (Transaction.BlockHash trx); simpl.
    + destruct (snd (cache.PushTransaction (repository.cache p) trx));
        repeat split.
    + repeat split.
  - intros (Inv & Hinv & Hstep) Hmiss k r. subst r.
    destruct (after_lookups_pending Inv p hash k Hstep Hinv Hmiss)
      as [Hinvk Hcache].
    destruct (Hstep _ Hinvk) as (n' & trx & Hrpc & Hblock & _).
    rewrite (Transaction_miss_fetched _ hash n' trx); [|congruence|exact Hrpc].
    rewrite Hblock. split; reflexivity.
Qed.

(** C4. On a cache miss, the no-result condition of the RPC client becomes
    [ErrTransactionNotFound], every other error of the client is returned as
    it is, and in both cases nothing is written to the cache. *)
Theorem Transaction_not_found p hash n' err :
  cache.PullTransaction (repository.cache p) hash = None ->
  lachesis.Transaction (repository.rpc p) hash = (n', Err err) ->
  let r := repository.Transaction hash p in
  (err = ErrNoResult -> value r = (None, Some ErrTransactionNotFound))
  /\ (err <> ErrNoResult -> value r = (None, Some err))
  /\ repository.cache (state r) = repository.cache p
  /\ calls ToCache (trace r) = [CachePullTransaction hash].
Proof.
  intros Hpull Hrpc r. subst r.
  rewrite (Transaction_miss_error _ _ _ _ Hpull Hrpc).
  unfold value, state, trace. simpl.
  repeat split.
  - intros ->. reflexivity.
  - intros Hne. destruct err; [congruence|reflexivity|reflexivity].
  - destruct (is_ErrNoResult err); reflexivity.
Qed.
Lemma CurrentSealedEpoch_hit p ep :
  cache.PullLastEpoch (repository.cache p) = Some ep ->
  repository.CurrentSealedEpoch p =
    (Some ep, None, p,
     [Log logger.Debug "latest sealed epoch requested";
      CachePullLastEpoch;
      Log logger.Debug "latest sealed epoch loaded from cache"]).
Proof.
  intros Hpull. unfold_run. rewrite Hpull. simpl. destruct p; reflexivity.
Qed.

Lemma CurrentSealedEpoch_miss_fetched p id n1 t1 ep n2 t2 :
  cache.PullLastEpoch (repository.cache p) = None ->
  rpc.CurrentSealedEpoch (repository.rpc p) = (id, None, n1, t1) ->
  rpc.Epoch id n1 = (ep, None, n2, t2) ->
  repository.CurrentSealedEpoch p =
    (Some ep, None,
     repository.mkProxy (fst (cache.PushLastEpoch (repository.cache p) ep))
       (repository.db p) n2,
     [Log logger.Debug "latest sealed epoch requested"; CachePullLastEpoch]
     ++ t1 ++ t2
     ++ [CachePushLastEpoch ep]
     ++ match snd (cache.PushLastEpoch (repository.cache p) ep) with
        | Some _ => [Log logger.Error "%v"]
        | None => []
        end
     ++ [Log logger.Debug "epoch [%s] loaded from sfc"]).
Proof.
  intros Hpull Hid Hep. unfold_run. rewrite Hpull. simpl.
  rewrite Hid. simpl. rewrite Hep. simpl.
  destruct (cache.PushLastEpoch (repository.cache p) ep) as [c' [e|]]; simpl;
    rewrite ?List.app_nil_r; reflexivity.
Qed.
(** C5. [CurrentSealedEpoch] is served from the cache without any call to
    the node on a hit; on a miss it reads the id of the sealed epoch, then the
    data of that epoch, pushes the epoch to the cache and returns it.  [Epoch]
    is the RPC bridge's [Epoch] for every id, and neither it nor
    [CurrentEpoch] reads or writes the cache. *)
Theorem CurrentSealedEpoch_only_cached_epoch p :
  (forall ep,
      cache.PullLastEpoch (repository.cache p) = Some ep ->
      let r := repository.CurrentSealedEpoch p in
      value r = (Some ep, None)
      /\ state r = p
      /\ calls ToNode (trace r) = [])
  /\ (forall id n1 t1 ep n2 t2,
      cache.PullLastEpoch (repository.cache p) = None ->
      rpc.CurrentSealedEpoch (repository.rpc p) = (id, None, n1, t1) ->
      rpc.Epoch id n1 = (ep, None, n2, t2) ->
      let r := repository.CurrentSealedEpoch p in
      value r = (Some ep, None)
      /\ (exists rest,
             trace r =
               [Log logger.Debug "latest sealed epoch requested";
                CachePullLastEpoch]
               ++ t1 ++ t2 ++ CachePushLastEpoch ep :: rest)
      /\ calls ToNode (trace r) = calls ToNode t1 ++ calls ToNode t2
      /\ calls ToCache (trace r) = [CachePullLastEpoch; CachePushLastEpoch ep]
      /\ repository.cache (state r) =
           fst (cache.PushLastEpoch (repository.cache p) ep))
  /\ (forall id,
      let r := repository.Epoch id p in
      value r = value (rpc.Epoch id (repository.rpc p))
      /\ trace r = trace (rpc.Epoch id (repository.rpc p))
      /\ (exists rest, trace r = NodeNewSfcContract :: rest)
      /\ calls ToCache (trace r) = []
      /\ repository.cache (state r) = repository.cache p)
  /\ (let r := repository.CurrentEpoch p in
      calls ToCache (trace r) = []
      /\ repository.cache (state r) = repository.cache p).
Proof.
  split; [|split; [|split]].
  - intros ep Hpull r. subst r. rewrite (CurrentSealedEpoch_hit _ _ Hpull).
    repeat split.
  - intros id n1 t1 ep n2 t2 Hpull Hid Hep r. subst r.
    rewrite (CurrentSealedEpoch_miss_fetched _ _ _ _ _ _ _ Hpull Hid Hep).
    pose proof (rpc_CurrentSealedEpoch_no_cache (repository.rpc p)) as Hc1.
    pose proof (rpc_Epoch_no_cache id n1) as Hc2.
    rewrite Hid in Hc1. rewrite Hep in Hc2.
    unfold value, state, trace in *. cbn [fst snd] in *.
    split; [reflexivity|]. split; [eexists; reflexivity|].
    rewrite !calls_app, Hc1, Hc2.
    destruct (snd (cache.PushLastEpoch (repository.cache p) ep));
      simpl; rewrite ?List.app_nil_r; repeat split.
  - intros id r. subst r. unfold repository.Epoch, repository.on_rpc.
    pose proof (rpc_Epoch_no_cache id (repository.rpc p)) as Hc.
    destruct (rpc_Epoch_binds id (repository.rpc p)) as [rest Hb].
    destruct (rpc.Epoch id (repository.rpc p)) as [[v n1] t].
    unfold value, state, trace in *. cbn [fst snd] in *.
    repeat split; eauto.
  - intros r. subst r. unfold repository.CurrentEpoch, repository.on_rpc.
    pose proof (rpc_CurrentEpoch_no_cache (repository.rpc p)) as Hc.
    destruct (rpc.CurrentEpoch (repository.rpc p)) as [[v n1] t].
    unfold value, state, trace in *. cbn [fst snd] in *.
    repeat split; eauto.
Qed.

(** C7. A failed cache put does not fail the read: when the transaction, or
    the sealed epoch, has been fetched from the node and the put that follows
    fails, the failure is logged and the fetched entity is returned with a
    nil error. *)
Theorem cache_put_failure_not_fatal p :
  (forall hash n' trx b c' e,
      cache.PullTransaction (repository.cache p) hash = None ->
      lachesis.Transaction (repository.rpc p) hash = (n', Ok trx) ->
      Transaction.BlockHash trx = Some b ->
      cache.PushTransaction (repository.cache p) trx = (c', Some e) ->
      let r := repository.Transaction hash p in
      value r = (Some trx, None)
      /\ trace r =
           [Log logger.Debug "requested transaction %s";
            CachePullTransaction hash;
            NodeTransaction hash;
            Log logger.Debug "transaction %s loaded from rpc";
            CachePushTransaction trx;
            Log logger.Error "can not store transaction in cache; %s"])
  /\ (forall id n1 t1 ep n2 t2 c' e,
      cache.PullLastEpoch (repository.cache p) = None ->
      rpc.CurrentSealedEpoch (repository.rpc p) = (id, None, n1, t1) ->
      rpc.Epoch id n1 = (ep, None, n2, t2) ->
      cache.PushLastEpoch (repository.cache p) ep = (c', Some e) ->
      let r := repository.CurrentSealedEpoch p in
      value r = (Some ep, None)
      /\ trace r =
           [Log logger.Debug "latest sealed epoch requested";
            CachePullLastEpoch]
           ++ t1 ++ t2
           ++ [CachePushLastEpoch ep;
               Log logger.Error "%v";
               Log logger.Debug "epoch [%s] loaded from sfc"]).
Proof.
  split.
  - intros hash n' trx b c' e Hpull Hrpc Hblock Hpush r. subst r.
    rewrite (Transaction_miss_fetched _ _ _ _ Hpull Hrpc), Hblock, Hpush.
    split; reflexivity.
  - intros id n1 t1 ep n2 t2 c' e Hpull Hid Hep Hpush r. subst r.
    rewrite (CurrentSealedEpoch_miss_fetched _ _ _ _ _ _ _ Hpull Hid Hep), Hpush.
    split; reflexivity.
Qed.

(** C8. [AddTransaction] always appends the transaction to the document
    store.  If that append fails its error is returned and no contract append
    is attempted; otherwise a contract record is appended exactly when the
    transaction carries a deployed-contract address, and the outcome of that
    append is what the caller gets. *)
Theorem AddTransaction_appends p block trx :
  let r := repository.AddTransaction block trx p in
  let first := db.AddTransaction (repository.db p) block trx in
  (exists rest, trace r = DbAddTransaction block trx :: rest)
  /\ (forall err,
      snd first = Some err ->
      value r = Some err
      /\ calls ToDb (trace r) = [DbAddTransaction block trx]
      /\ repository.db (state r) = fst first)
  /\ (snd first = None ->
      calls ToDb (trace r) =
        DbAddTransaction block trx
        :: match Transaction.ContractAddress trx with
           | Some _ => [DbAddContract block trx]
           | None => []
           end
      /\ match Transaction.ContractAddress trx with
         | Some _ =>
             value r = snd (db.AddContract (fst first) block trx)
             /\ repository.db (state r) = fst (db.AddContract (fst first) block trx)
         | None => value r = None /\ repository.db (state r) = fst first
         end).
Proof.
  intros r first. subst r first. unfold_run.
  destruct (db.AddTransaction (repository.db p) block trx) as [d1 [e1|]]; simpl.
  - split; [eauto|]. split; [|discriminate].
    intros err [= ->]. repeat split.
  - destruct (Transaction.ContractAddress trx) as [addr|]; simpl.
    + destruct (db.AddContract d1 block trx) as [d2 [e2|]]; simpl;
        (split; [eauto|]); (split; [discriminate|]); repeat split.
    + split; [eauto|]. split; [discriminate|]. repeat split.
Qed.
End Facade.

Section Resolvers.
Context {R : Type} `{repository.Repository R}.
Context {TransactionList Contract : Type}.
Context (NewTransactionList : TransactionHashList.t -> TransactionList).
Context (NewContract : Contract.t -> Contract).
Implicit Types (repo : R) (acc : Account.t).

Lemma listLimitCount_bound count limit :
  0 <= limit -> - limit <= resolvers.listLimitCount count limit <= limit.
Proof.
  intros Hlimit. unfold resolvers.listLimitCount.
  destruct (Z.ltb_spec limit count); [lia|].
  destruct (Z.ltb_spec count (- limit)); lia.
Qed.


(** C10. For an account without a deploying transaction the contract
    resolver answers a nil contract with a nil error and calls nothing; the
    repository's [Contract] is called exactly when the account has a
    deploying transaction, once and with the address of the account. *)
Theorem Account_Contract_guard acc repo :
  let r := resolvers.Account_Contract NewContract acc repo in
  (Account.ContractTx acc = None ->
   value r = (None, None) /\ state r = repo /\ trace r = [])
  /\ (forall addr, In (RepoContract addr) (trace r) -> Account.ContractTx acc <> None)
  /\ (Account.ContractTx acc <> None ->
      trace r = [RepoContract (Account.Address acc)]).
Proof.
  intros r. subst r. unfold resolvers.Account_Contract.
  destruct (Account.ContractTx acc) as [tx|].
  - unfold bind, call, ret, value, state, trace. simpl.
    destruct (repository.Contract repo (Account.Address acc)) as [repo' [con|e]];
      simpl; (split; [discriminate|]); split; try discriminate; reflexivity.
  - unfold ret, value, state, trace. simpl.
    split; [repeat split|]. split; [intros addr []|congruence].
Qed.
End Resolvers.

Section Stakers.
Context {N : Type} `{lachesis.Node N}.
Implicit Types (n : N) (st : Staker.t) (id : hexutil.Uint64).

(** Division by the ratio unit rounds down. *)
Lemma Div_ratioUnit x : big.Div x rpc.ratioUnit = x / 1000000.
Proof. unfold big.Div, rpc.ratioUnit. simpl. apply Z.mul_1_l. Qed.

(** The status update leaves the identity and the lock window alone. *)
Lemma stakerStatusFromSfc_keeps st n :
  let st1 := fst (value (rpc.stakerStatusFromSfc st n)) in
  Staker.Id st1 = Staker.Id st
  /\ Staker.LockedFromEpoch st1 = Staker.LockedFromEpoch st
  /\ Staker.LockedUntil st1 = Staker.LockedUntil st.
Proof.
  unfold_bridge.
  destruct (lachesis.Stakers n _) as [n1 [[[status|] [stake|] [delegated|]]|e]];
    simpl; try (repeat split; fail).
  destruct (lachesis.MaxDelegatedRatio n1) as [n2 [ratio|e]]; repeat split.
Qed.

Lemma stakerStatusFromSfc_error st n n1 err :
  lachesis.Stakers n (big.NewInt_int64 (Staker.Id st)) = (n1, Err err) ->
  value (rpc.stakerStatusFromSfc st n) = (st, Some err).
Proof. intros Hcall. unfold_bridge. rewrite Hcall. reflexivity. Qed.

Lemma stakerStatusFromSfc_present st n n1 status stake delegated :
  lachesis.Stakers n (big.NewInt_int64 (Staker.Id st))
  = (n1, Ok (SfcContract.Stakers.mk (Some status) (Some stake) (Some delegated))) ->
  let limit :=
    match snd (lachesis.MaxDelegatedRatio n1) with
    | Ok ratio => stake * ratio / 1000000
    | Err _ => 0
    end in
  value (rpc.stakerStatusFromSfc st n)
  = (Staker.mk (Staker.Id st) (Staker.StakerAddress st)
       (Some (stake + delegated)) (Some stake) (Some delegated)
       limit (limit - delegated)
       (Staker.IsActive st) (Staker.CreatedEpoch st)
       (Staker.LockedFromEpoch st) (Staker.LockedUntil st)
       (big.Uint64 status),
     None).
Proof.
  intros Hcall. unfold_bridge. rewrite Hcall. simpl.
  destruct (lachesis.MaxDelegatedRatio n1) as [n2 [ratio|e]]; simpl.
  - rewrite Div_ratioUnit. unfold Staker.set_DelegatedLimit. simpl.
    rewrite (Z.add_comm delegated stake). reflexivity.
  - unfold Staker.set_DelegatedLimit. simpl.
    rewrite (Z.add_comm delegated stake). reflexivity.
Qed.

(** The lock update never reports an error; it sets the lock window when the
    reply carries both ends of it, and changes nothing otherwise. *)
Lemma stakerLockFromSfc_value st n :
  value (rpc.stakerLockFromSfc st n)
  = (match snd (lachesis.LockedStakes n (big.NewInt_int64 (Staker.Id st))) with
     | Ok (SfcContract.LockedStakes.mk (Some fromEpoch) (Some endTime)) =>
         Staker.set_LockedUntil (big.Uint64 endTime)
           (Staker.set_LockedFromEpoch (big.Uint64 fromEpoch) st)
     | _ => st
     end, None).
Proof.
  unfold_bridge.
  destruct (lachesis.LockedStakes n _) as [n1 [[[f|] [e|]]|e]]; reflexivity.
Qed.

(** Once the binding is there, the assembly returns the record it was
    given, after the status update and then the lock update. *)
Lemma extendStaker_bound st n n1 :
  lachesis.NewSfcContract n = (n1, None) ->
  value (rpc.extendStaker st n)
  = (Some (fst (value (rpc.stakerLockFromSfc
                         (fst (value (rpc.stakerStatusFromSfc st n1)))
                         (state (rpc.stakerStatusFromSfc st n1))))),
     None).
Proof.
  intros Hbind. unfold rpc.extendStaker, rpc.NewSfcContract, bind, call.
  rewrite Hbind.
  destruct (rpc.stakerStatusFromSfc st n1) as [[[st1 e1] n2] t1].
  unfold value at 1. cbn [fst snd state value].
  destruct e1; unfold log, emit, ret; simpl;
    destruct (rpc.stakerLockFromSfc st1 n2) as [[[st2 e2] n3] t2];
    destruct e2; reflexivity.
Qed.

Lemma extendStaker_unbound st n n1 err :
  lachesis.NewSfcContract n = (n1, Some err) ->
  value (rpc.extendStaker st n) = (None, Some err).
Proof.
  intros Hbind. unfold rpc.extendStaker, rpc.NewSfcContract, bind, call.
  rewrite Hbind. reflexivity.
Qed.

(** Both lookups end in the assembly of the base record they fetched. *)
Lemma Staker_extends n id n1 st :
  lachesis.Call_sfc_getStaker n id = (n1, Ok st) ->
  value (rpc.Staker id n) = value (rpc.extendStaker st n1).
Proof.
  intros Hcall. unfold rpc.Staker, bind, call, log, emit. simpl.
  rewrite Hcall. simpl.
  destruct (rpc.extendStaker st n1) as [[v n2] t]. reflexivity.
Qed.

Lemma StakerByAddress_extends n addr n1 st :
  lachesis.Call_sfc_getStakerByAddress n addr = (n1, Ok st) ->
  value (rpc.StakerByAddress addr n) = value (rpc.extendStaker st n1).
Proof.
  intros Hcall. unfold rpc.StakerByAddress, bind, call, log, emit. simpl.
  rewrite Hcall. simpl.
  destruct (rpc.extendStaker st n1) as [[v n2] t]. reflexivity.
Qed.
(** C2. When the contract's staker record carries a status, an own stake
    [S] and a delegated stake [D], and the contract supplies the ratio [R],
    the assembled staker has total stake [S + D], total delegated limit
    [S * R / 1000000] rounded down, and delegated limit that total limit
    minus [D], in unbounded integers and without clamping: it is negative
    when the staker is over-delegated.  So it is for the lookup by id and for
    the lookup by address. *)
Theorem Staker_delegation_limits st n1 n2 n3 n4 status S D R :
  lachesis.NewSfcContract n1 = (n2, None) ->
  lachesis.Stakers n2 (big.NewInt_int64 (Staker.Id st))
  = (n3, Ok (SfcContract.Stakers.mk (Some status) (Some S) (Some D))) ->
  lachesis.MaxDelegatedRatio n3 = (n4, Ok R) ->
  exists r,
    value (rpc.extendStaker st n1) = (Some r, None)
    /\ (forall n id,
           lachesis.Call_sfc_getStaker n id = (n1, Ok st) ->
           value (rpc.Staker id n) = (Some r, None))
    /\ (forall n addr,
           lachesis.Call_sfc_getStakerByAddress n addr = (n1, Ok st) ->
           value (rpc.StakerByAddress addr n) = (Some r, None))
    /\ Staker.Stake r = Some S
    /\ Staker.DelegatedMe r = Some D
    /\ Staker.TotalStake r = Some (S + D)
    /\ Staker.TotalDelegatedLimit r = S * R / 1000000
    /\ 1000000 * Staker.TotalDelegatedLimit r <= S * R
       < 1000000 * (Staker.TotalDelegatedLimit r + 1)
    /\ Staker.DelegatedLimit r = Staker.TotalDelegatedLimit r - D
    /\ (Staker.TotalDelegatedLimit r < D -> Staker.DelegatedLimit r < 0).
Proof.
  intros Hbind Hstakers Hratio.
  pose proof (extendStaker_bound st n1 n2 Hbind) as Hext.
  pose proof (stakerStatusFromSfc_present st n2 n3 status S D Hstakers) as Hst.
  cbv zeta in Hst. rewrite Hratio in Hst. cbn [snd] in Hst.
  rewrite Hst in Hext. cbn [fst] in Hext.
  rewrite stakerLockFromSfc_value in Hext. cbn [fst] in Hext.
  eexists. split; [exact Hext|].
  split; [intros n id Hcall; rewrite (Staker_extends _ _ _ _ Hcall); exact Hext|].
  split; [intros n addr Hcall;
          rewrite (StakerByAddress_extends _ _ _ _ Hcall); exact Hext|].
  assert (Hfloor : 1000000 * (S * R / 1000000) <= S * R
                   < 1000000 * (S * R / 1000000 + 1)).
  { pose proof (Z.div_mod (S * R) 1000000 ltac:(lia)).
    pose proof (Z.mod_pos_bound (S * R) 1000000 ltac:(lia)). lia. }
  destruct (snd (lachesis.LockedStakes _ _)) as [[[f|] [e|]]|e]; simpl;
    repeat split; try reflexivity; try lia.
Qed.

(** C3, as the code has it.  A failed base fetch fails the lookup with that
    error, by id and by address, and a fetched base record goes to the
    assembly.  The assembly fails, with the error of the binding, when the
    contract binding cannot be constructed.  Once the binding is there the
    assembly returns a staker record whatever the secondary calls do: a failed
    status call leaves the stake, delegation, limit and status fields of the
    base record, a failed ratio read leaves the total delegated limit at zero
    under the total stake [S + D], with the delegated limit still that total
    limit minus [D], and a failed or empty lock read leaves the lock window of
    the base record. *)
Theorem Staker_partial_assembly :
  (forall n id n1 err,
      lachesis.Call_sfc_getStaker n id = (n1, Err err) ->
      value (rpc.Staker id n) = (None, Some err))
  /\ (forall n addr n1 err,
      lachesis.Call_sfc_getStakerByAddress n addr = (n1, Err err) ->
      value (rpc.StakerByAddress addr n) = (None, Some err))
  /\ (forall n id n1 st,
      lachesis.Call_sfc_getStaker n id = (n1, Ok st) ->
      value (rpc.Staker id n) = value (rpc.extendStaker st n1))
  /\ (forall n addr n1 st,
      lachesis.Call_sfc_getStakerByAddress n addr = (n1, Ok st) ->
      value (rpc.StakerByAddress addr n) = value (rpc.extendStaker st n1))
  /\ (forall st n1 n2 err,
      lachesis.NewSfcContract n1 = (n2, Some err) ->
      value (rpc.extendStaker st n1) = (None, Some err))
  /\ (forall st n1 n2,
      lachesis.NewSfcContract n1 = (n2, None) ->
      exists r,
        value (rpc.extendStaker st n1) = (Some r, None)
        /\ (forall n3 err,
               lachesis.Stakers n2 (big.NewInt_int64 (Staker.Id st)) = (n3, Err err) ->
               Staker.TotalStake r = Staker.TotalStake st
               /\ Staker.Stake r = Staker.Stake st
               /\ Staker.DelegatedMe r = Staker.DelegatedMe st
               /\ Staker.TotalDelegatedLimit r = Staker.TotalDelegatedLimit st
               /\ Staker.DelegatedLimit r = Staker.DelegatedLimit st
               /\ Staker.Status r = Staker.Status st)
        /\ (forall n3 status S D n4 err,
               lachesis.Stakers n2 (big.NewInt_int64 (Staker.Id st))
               = (n3, Ok (SfcContract.Stakers.mk (Some status) (Some S) (Some D))) ->
               lachesis.MaxDelegatedRatio n3 = (n4, Err err) ->
               Staker.TotalStake r = Some (S + D)
               /\ Staker.TotalDelegatedLimit r = 0
               /\ Staker.DelegatedLimit r = Staker.TotalDelegatedLimit r - D)
        /\ (lock_available
              (snd (lachesis.LockedStakes (state (rpc.stakerStatusFromSfc st n2))
                      (big.NewInt_int64 (Staker.Id st)))) = false ->
            Staker.LockedFromEpoch r = Staker.LockedFromEpoch st
            /\ Staker.LockedUntil r = Staker.LockedUntil st)).
Proof.
  split; [|split; [|split; [|split; [|split]]]].
  - intros n id n1 err Hcall.
    unfold rpc.Staker, bind, call, log, emit, ret, value. simpl.
    rewrite Hcall. reflexivity.
  - intros n addr n1 err Hcall.
    unfold rpc.StakerByAddress, bind, call, log, emit, ret, value. simpl.
    rewrite Hcall. reflexivity.
  - exact Staker_extends.
  - exact StakerByAddress_extends.
  - exact extendStaker_unbound.
  - intros st n1 n2 Hbind.
    pose proof (extendStaker_bound st n1 n2 Hbind) as Hext.
    rewrite stakerLockFromSfc_value in Hext. cbn [fst] in Hext.
    destruct (stakerStatusFromSfc_keeps st n2) as (Hid & Hfrom & Huntil).
    cbv zeta in Hid, Hfrom, Huntil. rewrite Hid in Hext.
    eexists. split; [exact Hext|]. clear Hext.
    split; [|split].
    + intros n3 err Hstakers.
      rewrite (stakerStatusFromSfc_error _ _ _ _ Hstakers). cbn [fst].
      destruct (snd (lachesis.LockedStakes _ _)) as [[[f|] [e|]]|e];
        repeat split.
    + intros n3 status S D n4 err Hstakers Hratio.
      pose proof (stakerStatusFromSfc_present st n2 n3 status S D Hstakers) as Hst.
      cbv zeta in Hst. rewrite Hratio in Hst. cbn [snd] in Hst.
      rewrite Hst. cbn [fst].
      destruct (snd (lachesis.LockedStakes _ _)) as [[[f|] [e|]]|e];
        repeat split.
    + intros Hlock.
      destruct (snd (lachesis.LockedStakes _ _)) as [[[f|] [e|]]|e];
        simpl in Hlock; try discriminate; split; assumption.
Qed.
End Stakers.

(** ** Cache population

    A cache that gives back what was pushed serves a confirmed transaction on
    the lookup that follows the one that fetched it, without the node. *)

Section Population.
Context {C D N : Type}.
Context `{cache.MemBridge C} `{db.MongoDbBridge D} `{lachesis.Node N}.

(** X2. With a cache that gives back the transaction that was pushed, a
    confirmed transaction fetched on a miss is served by the next lookup of
    the same hash from the cache, without the node. *)
Lemma Transaction_populates (p : repository.proxy C D N) hash n' trx b :
  cache.PullTransaction (repository.cache p) hash = None ->
  lachesis.Transaction (repository.rpc p) hash = (n', Ok trx) ->
  Transaction.BlockHash trx = Some b ->
  cache.PullTransaction
    (fst (cache.PushTransaction (repository.cache p) trx)) hash = Some trx ->
  let again := repository.Transaction hash (state (repository.Transaction hash p)) in
  value again = (Some trx, None) /\ calls ToNode (trace again) = [].
Proof.
  intros Hmiss Hrpc Hblock Hlaw again. subst again.
  rewrite (Transaction_miss_fetched _ _ _ _ Hmiss Hrpc), Hblock.
  unfold state. cbn [fst snd].
  rewrite (Transaction_hit _ hash trx) by exact Hlaw.
  split; reflexivity.
Qed.
End Population.

(** The reference cache gives back what was pushed, unless it is full. *)
Lemma memcache_push_pull (c : memcache.t) (trx : Transaction.t) :
  memcache.full c = false ->
  cache.PullTransaction (fst (cache.PushTransaction c trx)) (Transaction.Hash trx)
  = Some trx.
Proof.
  intros Hroom. simpl. unfold memcache.PushTransaction, memcache.PullTransaction.
  rewrite Hroom. simpl. apply lookup_insert_eq.
Qed.

(** Pushing one transaction does not disturb the others. *)
Lemma memcache_push_other (c : memcache.t) (trx : Transaction.t) (hash : Hash) :
  Transaction.Hash trx <> hash ->
  cache.PullTransaction (fst (cache.PushTransaction c trx)) hash
  = cache.PullTransaction c hash.
Proof.
  intros Hother. simpl. unfold memcache.PushTransaction, memcache.PullTransaction.
  destruct (memcache.full c); simpl; [reflexivity|].
  apply lookup_insert_ne. exact Hother.
Qed.

(** ** The properties on the reference bridges *)

(** The scripted node keeps answering the fetch of the pending sample
    transaction in the same way. *)
Lemma sample_stays_pending : stays_pending 0xa2 sample.node.
Proof.
  exists (fun n => n = sample.node). split; [reflexivity|].
  intros n ->. exists sample.node, sample.pending. repeat split.
Defined.

(** C1 on the sample facade: the confirmed transaction is pushed on its first
    lookup and served from the cache, without the node, on the second; the
    pending one is never pushed and is fetched from the node again on the
    fourth lookup as on the first. *)
Lemma Transaction_cache_aside_witness :
  (cache.PullTransaction
     (repository.cache (state (repository.Transaction 0xa1 sample.fresh))) 0xa1
   = Some sample.confirmed
   /\ calls ToNode
        (trace (repository.Transaction 0xa1
                  (state (repository.Transaction 0xa1 sample.fresh)))) = [])
  /\ calls ToCache (trace (repository.Transaction 0xa1 sample.fresh))
     = [CachePullTransaction 0xa1; CachePushTransaction sample.confirmed]
  /\ calls ToCache (trace (repository.Transaction 0xa2 sample.fresh))
     = [CachePullTransaction 0xa2]
  /\ calls ToNode
       (trace (repository.Transaction 0xa2 (after_lookups 3 0xa2 sample.fresh)))
     = [NodeTransaction 0xa2].
Proof.
  split; [split; [reflexivity|]|split; [|split]].
  - apply (proj1 (Transaction_cache_aside
                    (state (repository.Transaction 0xa1 sample.fresh)) 0xa1)
             sample.confirmed).
    reflexivity.
  - apply (proj1 (proj2 (Transaction_cache_aside sample.fresh 0xa1))
             sample.node sample.confirmed); reflexivity.
  - apply (proj1 (proj2 (Transaction_cache_aside sample.fresh 0xa2))
             sample.node sample.pending); reflexivity.
  - assert (Hmiss : cache.PullTransaction (repository.cache sample.fresh) 0xa2 = None)
      by reflexivity.
    apply (proj2 (proj2 (Transaction_cache_aside sample.fresh 0xa2))
             sample_stays_pending Hmiss 3%nat).
Defined.

(** C4 on the sample facade: the node has no result for the hash, and the
    lookup answers [ErrTransactionNotFound] and leaves the cache empty. *)
Lemma Transaction_not_found_witness :
  value (repository.Transaction 0xa3 sample.fresh)
  = (None, Some ErrTransactionNotFound)
  /\ repository.cache (state (repository.Transaction 0xa3 sample.fresh))
     = memcache.empty
  /\ value (repository.Transaction 0xa4 sample.fresh)
     = (None, Some (ErrOther "connection refused")).
Proof.
  assert (Hmiss3 : cache.PullTransaction (repository.cache sample.fresh) 0xa3 = None)
    by reflexivity.
  assert (Hmiss4 : cache.PullTransaction (repository.cache sample.fresh) 0xa4 = None)
    by reflexivity.
  assert (Hrpc3 : lachesis.Transaction (repository.rpc sample.fresh) 0xa3
                  = (sample.node, Err ErrNoResult)) by reflexivity.
  assert (Hrpc4 : lachesis.Transaction (repository.rpc sample.fresh) 0xa4
                  = (sample.node, Err (ErrOther "connection refused")))
    by reflexivity.
  destruct (Transaction_not_found sample.fresh 0xa3 sample.node ErrNoResult
              Hmiss3 Hrpc3) as (Hnf & _ & Hcache & _).
  destruct (Transaction_not_found sample.fresh 0xa4 sample.node
              (ErrOther "connection refused") Hmiss4 Hrpc4) as (_ & Hother & _).
  split; [exact (Hnf eq_refl)|]. split; [exact Hcache|].
  apply Hother. discriminate.
Defined.

(** C5 on the sample facade: the first lookup of the sealed epoch asks the
    node for the id and then for the data; the second is served from the
    cache. *)
Lemma CurrentSealedEpoch_only_cached_epoch_witness :
  calls ToNode (trace (repository.CurrentSealedEpoch sample.fresh))
  = [NodeNewSfcContract; SfcCurrentSealedEpoch;
     NodeNewSfcContract; SfcEpochSnapshots 41]
  /\ calls ToNode
       (trace (repository.CurrentSealedEpoch
                 (state (repository.CurrentSealedEpoch sample.fresh)))) = []
  /\ calls ToCache (trace (repository.Epoch 41 sample.fresh)) = [].
Proof.
  pose proof (CurrentSealedEpoch_only_cached_epoch sample.fresh)
    as (_ & Hmiss & Hlive & _).
  pose proof (CurrentSealedEpoch_only_cached_epoch
                (state (repository.CurrentSealedEpoch sample.fresh)))
    as (Hhit & _).
  split; [|split].
  - apply (Hmiss 41 sample.node
             [NodeNewSfcContract; SfcCurrentSealedEpoch]
             (Epoch.mk 41 1600000000 14400 7 11 13 17 19 23 29)
             sample.node
             [NodeNewSfcContract; SfcEpochSnapshots 41]);
      reflexivity.
  - apply (Hhit (Epoch.mk 41 1600000000 14400 7 11 13 17 19 23 29)).
    reflexivity.
  - apply (Hlive 41).
Defined.

(** C7 on a facade whose cache refuses every put: both reads still return
    what the node gave. *)
Lemma cache_put_failure_not_fatal_witness :
  value (repository.Transaction 0xa1 sample.cacheFull)
  = (Some sample.confirmed, None)
  /\ value (repository.CurrentSealedEpoch sample.cacheFull)
     = (Some (Epoch.mk 41 1600000000 14400 7 11 13 17 19 23 29), None).
Proof.
  pose proof (cache_put_failure_not_fatal sample.cacheFull) as (Htrx & Hep).
  split.
  - apply (Htrx 0xa1 sample.node sample.confirmed 0xb1
             (memcache.mk ∅ None true) (ErrOther "cache is full"));
      reflexivity.
  - apply (Hep 41 sample.node
             [NodeNewSfcContract; SfcCurrentSealedEpoch]
             (Epoch.mk 41 1600000000 14400 7 11 13 17 19 23 29)
             sample.node
             [NodeNewSfcContract; SfcEpochSnapshots 41]
             (memcache.mk ∅ None true) (ErrOther "cache is full"));
      reflexivity.
Defined.

(** C8 on the sample facade: a deployment is appended with its contract, a
    plain transaction alone, and a refused contract append is reported. *)
Lemma AddTransaction_appends_witness :
  calls ToDb (trace (repository.AddTransaction (Some sample.block)
                       sample.deployment sample.fresh))
  = [DbAddTransaction (Some sample.block) sample.deployment;
     DbAddContract (Some sample.block) sample.deployment]
  /\ calls ToDb (trace (repository.AddTransaction (Some sample.block)
                          sample.confirmed sample.fresh))
     = [DbAddTransaction (Some sample.block) sample.confirmed]
  /\ value (repository.AddTransaction (Some sample.block) sample.deployment
              sample.contractsDown)
     = Some (ErrOther "can not insert contract").
Proof.
  split; [|split].
  - apply (proj2 (proj2 (AddTransaction_appends sample.fresh
                           (Some sample.block) sample.deployment))).
    reflexivity.
  - apply (proj2 (proj2 (AddTransaction_appends sample.fresh
                           (Some sample.block) sample.confirmed))).
    reflexivity.
  - assert (Hfirst : snd (db.AddTransaction (repository.db sample.contractsDown)
                            (Some sample.block) sample.deployment) = None)
      by reflexivity.
    destruct (proj2 (proj2 (AddTransaction_appends sample.contractsDown
                              (Some sample.block) sample.deployment)) Hfirst)
      as [_ Hcontract].
    cbn [Transaction.ContractAddress sample.deployment] in Hcontract.
    destruct Hcontract as [Hvalue _]. rewrite Hvalue. reflexivity.
Defined.

(** C2 on the sample node: own stake 3.000.000, delegated 50.000.000, ratio
    15.000.000 (15 in units of 1.000.000): the limit is 45.000.000 and the
    remaining limit is 5.000.000 below zero. *)
Lemma Staker_delegation_limits_witness :
  exists r,
    value (rpc.Staker 1 sample.node) = (Some r, None)
    /\ Staker.TotalStake r = Some 53000000
    /\ Staker.TotalDelegatedLimit r = 45000000
    /\ Staker.DelegatedLimit r = -5000000.
Proof.
  assert (Hbind : lachesis.NewSfcContract sample.node = (sample.node, None))
    by reflexivity.
  assert (Hstakers :
            lachesis.Stakers sample.node (big.NewInt_int64 (Staker.Id sample.baseStaker))
            = (sample.node,
               Ok (SfcContract.Stakers.mk (Some 0) (Some 3000000) (Some 50000000))))
    by reflexivity.
  assert (Hratio : lachesis.MaxDelegatedRatio sample.node = (sample.node, Ok 15000000))
    by reflexivity.
  destruct (Staker_delegation_limits sample.baseStaker sample.node sample.node
              sample.node sample.node 0 3000000 50000000 15000000
              Hbind Hstakers Hratio)
    as (r & _ & Hid & _ & _ & _ & Htotal & Hlimit & _ & Hrest & _).
  exists r. split; [apply (Hid sample.node 1); reflexivity|].
  rewrite Htotal, Hrest, Hlimit. repeat split.
Defined.

(** C3, the statement as written, fails on the sample node when the
    delegation ratio cannot be read: the base fetch succeeds, the lookup
    returns a record, and its delegated limit is neither the value of the base
    record nor zero. *)
Lemma Staker_ratio_failure_delegated_limit :
  lachesis.Call_sfc_getStaker sample.nodeNoRatio 1
  = (sample.nodeNoRatio, Ok sample.baseStaker)
  /\ lachesis.MaxDelegatedRatio sample.nodeNoRatio
     = (sample.nodeNoRatio, Err (ErrOther "execution reverted"))
  /\ exists r,
       value (rpc.Staker 1 sample.nodeNoRatio) = (Some r, None)
       /\ Staker.DelegatedLimit r = -50000000
       /\ Staker.DelegatedLimit r <> Staker.DelegatedLimit sample.baseStaker
       /\ Staker.DelegatedLimit r <> 0.
Proof.
  split; [reflexivity|]. split; [reflexivity|].
  eexists. split; [reflexivity|]. simpl. repeat split; discriminate.
Qed.

(** C3 on the sample nodes: with the ratio unreadable the lookup returns a
    record with total limit zero; with the lock window unreadable it returns
    a record with the lock window of the base record. *)
Lemma Staker_partial_assembly_witness :
  (exists r,
      value (rpc.Staker 1 sample.nodeNoRatio) = (Some r, None)
      /\ Staker.TotalStake r = Some 53000000
      /\ Staker.TotalDelegatedLimit r = 0)
  /\ (exists r,
      value (rpc.Staker 1 sample.nodeNoLock) = (Some r, None)
      /\ Staker.LockedFromEpoch r = 0
      /\ Staker.LockedUntil r = 0).
Proof.
  destruct (@Staker_partial_assembly scripted.t scripted.node)
    as (_ & _ & Hext & _ & _ & Hbound).
  split.
  - assert (Hbind : lachesis.NewSfcContract sample.nodeNoRatio
                    = (sample.nodeNoRatio, None)) by reflexivity.
    destruct (Hbound sample.baseStaker sample.nodeNoRatio sample.nodeNoRatio Hbind)
      as (r & Hvalue & _ & Hratio & _).
    exists r. split.
    + rewrite (Hext sample.nodeNoRatio 1 sample.nodeNoRatio sample.baseStaker);
        [exact Hvalue|reflexivity].
    + destruct (Hratio sample.nodeNoRatio 0 3000000 50000000 sample.nodeNoRatio
                  (ErrOther "execution reverted")) as (Htotal & Hlimit & _);
        [reflexivity|reflexivity|].
      split; assumption.
  - assert (Hbind : lachesis.NewSfcContract sample.nodeNoLock
                    = (sample.nodeNoLock, None)) by reflexivity.
    destruct (Hbound sample.baseStaker sample.nodeNoLock sample.nodeNoLock Hbind)
      as (r & Hvalue & _ & _ & Hlock).
    exists r. split.
    + rewrite (Hext sample.nodeNoLock 1 sample.nodeNoLock sample.baseStaker);
        [exact Hvalue|reflexivity].
    + apply Hlock. reflexivity.
Defined.




(** C10 on the sample repository: the plain account calls nothing, the
    contract account calls the repository once. *)
Lemma Account_Contract_guard_witness :
  resolvers.Account_Contract (fun con => con) sample.account sample.repo
  = (None, None, sample.repo, [])
  /\ trace (resolvers.Account_Contract (fun con => con) sample.contractAccount
              sample.repo)
     = [RepoContract 0xc0].
Proof.
  split.
  - destruct (proj1 (Account_Contract_guard (fun con => con) sample.account
                       sample.repo) eq_refl) as (Hvalue & Hstate & Htrace).
    destruct (resolvers.Account_Contract (fun con => con) sample.account
                sample.repo) as [[v s] t].
    unfold value, state, trace in *. simpl in *. congruence.
  - apply (proj2 (proj2 (Account_Contract_guard (fun con => con)
                           sample.contractAccount sample.repo))).
    discriminate.
Defined.

(** * Further properties of the facade *)

Section FacadeMore.
Context {C D N : Type}.
Context `{cache.MemBridge C} `{db.MongoDbBridge D} `{lachesis.Node N}.
Implicit Types (p : repository.proxy C D N) (hash : Hash).


(** X1. A transaction lookup answers either a transaction with a nil error
    or no transaction with an error, never both and never neither; and the
    error is never the raw no-result sentinel of the RPC client. *)
Theorem Transaction_result_shape p hash :
  let r := value (repository.Transaction hash p) in
  ((exists trx, r = (Some trx, None)) \/ (exists err, r = (None, Some err)))
  /\ snd r <> Some ErrNoResult.
Proof.
  intros r. subst r.
  destruct (cache.PullTransaction (repository.cache p) hash) as [trx|] eqn:Hpull.
  - rewrite (Transaction_hit _ _ _ Hpull). unfold value. simpl.
    split; [left; eauto|discriminate].
  - destruct (lachesis.Transaction (repository.rpc p) hash) as [n' [trx|err]] eqn:Hrpc.
    + rewrite (Transaction_miss_fetched _ _ _ _ Hpull Hrpc). unfold value. simpl.
      split; [left; eauto|discriminate].
    + rewrite (Transaction_miss_error _ _ _ _ Hpull Hrpc). unfold value. simpl.
      split; [right; eauto|]. destruct err; simpl; congruence.
Qed.

(** X3. With a cache that gives back the epoch that was pushed, the sealed
    epoch fetched on a miss is served from the cache on the next lookup,
    without the node. *)
Theorem CurrentSealedEpoch_populates p id n1 t1 ep n2 t2 :
  cache.PullLastEpoch (repository.cache p) = None ->
  rpc.CurrentSealedEpoch (repository.rpc p) = (id, None, n1, t1) ->
  rpc.Epoch id n1 = (ep, None, n2, t2) ->
  cache.PullLastEpoch (fst (cache.PushLastEpoch (repository.cache p) ep)) = Some ep ->
  let again :=
    repository.CurrentSealedEpoch (state (repository.CurrentSealedEpoch p)) in
  value again = (Some ep, None) /\ calls ToNode (trace again) = [].
Proof.
  intros Hmiss Hid Hep Hlaw again. subst again.
  rewrite (CurrentSealedEpoch_miss_fetched _ _ _ _ _ _ _ Hmiss Hid Hep).
  unfold state. cbn [fst snd].
  rewrite (CurrentSealedEpoch_hit _ ep) by exact Hlaw.
  split; reflexivity.
Qed.

(** X4. When the sealed epoch is not cached and the node fails, the error is
    returned as it is and nothing is pushed to the cache: after a failed read
    of the id the data is not asked for, and after a failed read of the data
    the zero epoch that came with the error is not cached. *)
Theorem CurrentSealedEpoch_failures p :
  cache.PullLastEpoch (repository.cache p) = None ->
  (forall id err n1 t1,
      rpc.CurrentSealedEpoch (repository.rpc p) = (id, Some err, n1, t1) ->
      let r := repository.CurrentSealedEpoch p in
      value r = (None, Some err)
      /\ trace r =
           [Log logger.Debug "latest sealed epoch requested"; CachePullLastEpoch]
           ++ t1
           ++ [Log logger.Error "can not get the id of the last sealed epoch; %s"]
      /\ repository.cache (state r) = repository.cache p)
  /\ (forall id n1 t1 ep err n2 t2,
      rpc.CurrentSealedEpoch (repository.rpc p) = (id, None, n1, t1) ->
      rpc.Epoch id n1 = (ep, Some err, n2, t2) ->
      let r := repository.CurrentSealedEpoch p in
      value r = (None, Some err)
      /\ calls ToCache (trace r) = [CachePullLastEpoch]
      /\ repository.cache (state r) = repository.cache p).
Proof.
  intros Hmiss. split.
  - intros id err n1 t1 Hid r. subst r. unfold_run. rewrite Hmiss. simpl.
    rewrite Hid. simpl. repeat split.
  - intros id n1 t1 ep err n2 t2 Hid Hep r. subst r.
    pose proof (rpc_CurrentSealedEpoch_no_cache (repository.rpc p)) as Hc1.
    pose proof (rpc_Epoch_no_cache id n1) as Hc2.
    rewrite Hid in Hc1. rewrite Hep in Hc2. unfold trace in Hc1, Hc2.
    cbn [snd] in Hc1, Hc2.
    unfold_run. rewrite Hmiss. simpl. rewrite Hid. simpl. rewrite Hep. simpl.
    split; [reflexivity|]. split; [|reflexivity].
    change (calls ToCache (CachePullLastEpoch :: (t1 ++ t2 ++ [Log logger.Error
              "can not get data of the last sealed epoch; %s"]))
            = [CachePullLastEpoch]).
    change (CachePullLastEpoch :: calls ToCache (t1 ++ t2 ++ [Log logger.Error
              "can not get data of the last sealed epoch; %s"])
            = [CachePullLastEpoch]).
    rewrite !calls_app, Hc1, Hc2. reflexivity.
Qed.
End FacadeMore.

(** * Further properties of the RPC bridge *)

Section BridgeMore.
Context {N : Type} `{lachesis.Node N}.
Implicit Types (n : N) (st : Staker.t) (id : hexutil.Uint64).


(** X5. A read of an epoch that succeeds carries the id that was asked for,
    after exactly one snapshot read; a read that fails carries the zero
    epoch; and when the contract cannot be bound the contract is not read. *)
Theorem rpc_Epoch_outcomes id n :
  let r := rpc.Epoch id n in
  (snd (value r) = None ->
   Epoch.Id (fst (value r)) = id
   /\ calls ToNode (trace r)
      = [NodeNewSfcContract; SfcEpochSnapshots (big.NewInt_int64 id)])
  /\ (snd (value r) <> None -> fst (value r) = Epoch.zero)
  /\ (forall n1 err,
         lachesis.NewSfcContract n = (n1, Some err) ->
         value r = (Epoch.zero, Some err)
         /\ calls ToNode (trace r) = [NodeNewSfcContract]).
Proof.
  intros r. subst r. unfold_bridge.
  destruct (lachesis.NewSfcContract n) as [n1 [e|]]; simpl.
  - split; [discriminate|]. split; [reflexivity|].
    intros n1' err [= -> ->]. split; reflexivity.
  - destruct (lachesis.EpochSnapshots n1 _) as [n2 [epo|e]]; simpl.
    + split; [intros _; split; reflexivity|].
      split; [congruence|discriminate].
    + split; [discriminate|]. split; [reflexivity|discriminate].
Qed.


(** X7. Once the contract is bound, the assembly of a staker reads the
    staker record, then the delegation ratio exactly when that record is
    complete, then the lock window: the lock window is read whether or not
    the reads before it succeeded.  When the contract cannot be bound,
    nothing is read. *)
Theorem extendStaker_contract_reads st n :
  (forall n1,
      lachesis.NewSfcContract n = (n1, None) ->
      calls ToNode (trace (rpc.extendStaker st n))
      = NodeNewSfcContract
        :: SfcStakers (big.NewInt_int64 (Staker.Id st))
        :: (if staker_complete
                 (snd (lachesis.Stakers n1 (big.NewInt_int64 (Staker.Id st))))
            then [SfcMaxDelegatedRatio] else [])
        ++ [SfcLockedStakes (big.NewInt_int64 (Staker.Id st))])
  /\ (forall n1 err,
      lachesis.NewSfcContract n = (n1, Some err) ->
      calls ToNode (trace (rpc.extendStaker st n)) = [NodeNewSfcContract]).
Proof.
  split.
  - intros n1 Hbind. unfold_bridge. rewrite Hbind. simpl.
    destruct (lachesis.Stakers n1 _) as [n2 [[[status|] [stake|] [delegated|]]|e]];
      simpl;
      try (destruct (lachesis.LockedStakes n2 _) as [n3 [[[f|] [u|]]|e']];
           reflexivity).
    destruct (lachesis.MaxDelegatedRatio n2) as [n3 [ratio|e]]; simpl;
      destruct (lachesis.LockedStakes n3 _) as [n4 [[[f|] [u|]]|e']];
      reflexivity.
  - intros n1 err Hbind. unfold_bridge. rewrite Hbind. reflexivity.
Qed.
(** X8. Whatever the secondary reads give, a staker record that the
    assembly returns comes with a nil error and keeps the identity and the
    life-cycle fields of the base record. *)
Theorem extendStaker_keeps_identity st n r e :
  value (rpc.extendStaker st n) = (Some r, e) ->
  e = None
  /\ Staker.Id r = Staker.Id st
  /\ Staker.StakerAddress r = Staker.StakerAddress st
  /\ Staker.IsActive r = Staker.IsActive st
  /\ Staker.CreatedEpoch r = Staker.CreatedEpoch st.
Proof.
  unfold_bridge.
  destruct (lachesis.NewSfcContract n) as [n1 [err|]]; simpl; [discriminate|].
  destruct (lachesis.Stakers n1 _) as [n2 [[[status|] [stake|] [delegated|]]|err]];
    simpl;
    try (destruct (lachesis.LockedStakes n2 _) as [n3 [[[f|] [u|]]|e']];
         simpl; intros [= <- <-]; repeat split).
  destruct (lachesis.MaxDelegatedRatio n2) as [n3 [ratio|err]]; simpl;
    destruct (lachesis.LockedStakes n3 _) as [n4 [[[f|] [u|]]|e']];
    simpl; intros [= <- <-]; repeat split.
Qed.

(** X9. The status update does nothing to a staker for which the contract
    has no record (no status), and reports no error.  For a record with a
    status but without the own stake or without the delegated stake it
    stores the stake, the delegation and the status and leaves the total
    stake and both limits as they were.  In neither case is the delegation
    ratio read. *)
Theorem stakerStatusFromSfc_incomplete st n n1 si :
  lachesis.Stakers n (big.NewInt_int64 (Staker.Id st)) = (n1, Ok si) ->
  staker_complete (Ok si) = false ->
  let r := rpc.stakerStatusFromSfc st n in
  snd (value r) = None
  /\ calls ToNode (trace r) = [SfcStakers (big.NewInt_int64 (Staker.Id st))]
  /\ Staker.TotalStake (fst (value r)) = Staker.TotalStake st
  /\ Staker.TotalDelegatedLimit (fst (value r)) = Staker.TotalDelegatedLimit st
  /\ Staker.DelegatedLimit (fst (value r)) = Staker.DelegatedLimit st
  /\ match SfcContract.Stakers.Status si with
     | None => fst (value r) = st
     | Some status =>
         Staker.Stake (fst (value r)) = SfcContract.Stakers.StakeAmount si
         /\ Staker.DelegatedMe (fst (value r)) = SfcContract.Stakers.DelegatedMe si
         /\ Staker.Status (fst (value r)) = big.Uint64 status
     end.
Proof.
  intros Hcall Hincomplete r. subst r. unfold_bridge. rewrite Hcall.
  destruct si as [[status|] [stake|] [delegated|]]; simpl in *;
    try discriminate; repeat split.
Qed.

(** X10. The delegation limit of an unknown stake is zero, and the contract
    is not asked.  With a ratio [R >= 0] read from the contract the limit
    grows with the stake, is at least zero for a stake that is, taken
    1000000 times never exceeds [S * R], and is the stake itself at the ratio
    unit. *)
Theorem maxDelegatedLimit_bounds n n1 R :
  lachesis.MaxDelegatedRatio n = (n1, Ok R) ->
  0 <= R ->
  rpc.maxDelegatedLimit None n = (0, n, [])
  /\ (forall S, 0 <= S -> 0 <= value (rpc.maxDelegatedLimit (Some S) n))
  /\ (forall S, 1000000 * value (rpc.maxDelegatedLimit (Some S) n) <= S * R)
  /\ (forall S1 S2,
         S1 <= S2 ->
         value (rpc.maxDelegatedLimit (Some S1) n)
         <= value (rpc.maxDelegatedLimit (Some S2) n))
  /\ (forall S, R = rpc.ratioUnit -> value (rpc.maxDelegatedLimit (Some S) n) = S).
Proof.
  intros Hratio HR.
  assert (Hvalue : forall S, value (rpc.maxDelegatedLimit (Some S) n) = S * R / 1000000).
  { intros S. unfold_bridge. rewrite Hratio. simpl. apply Div_ratioUnit. }
  split; [reflexivity|]. split; [|split; [|split]].
  - intros S HS. rewrite Hvalue. apply Z.div_pos; nia.
  - intros S. rewrite Hvalue. apply Z.mul_div_le. lia.
  - intros S1 S2 Hle. rewrite !Hvalue. apply Z.div_le_mono; nia.
  - intros S ->. rewrite Hvalue. unfold rpc.ratioUnit.
    apply Z.div_mul. discriminate.
Qed.
End BridgeMore.

(** Unfolding a run of the second kind down to the calls into the bridges. *)
Ltac unfold_actions :=
  unfold FtmBridge.SfcVersion, FtmBridge.LastStakerId, FtmBridge.StakersNum,
    proxy.SendTransaction, proxy.on_rpc,
    AccountResolver.Account, AccountResolver.Balance, AccountResolver.TxCount,
    AccountResolver.on_repo, AccountResolver.NewAccount,
    repository.on_rpc, rpc.Transaction, rpc.NewSfcContract,
    xbind, xcall, xlog, xret, lift, call, xvalue, xstate, xtrace;
  simpl.

Lemma Uint64_range x : 0 <= big.Uint64 x < 2 ^ 64.
Proof. unfold big.Uint64. apply Z.mod_pos_bound. reflexivity. Qed.

Lemma Uint64_exact x : 0 <= x < 2 ^ 64 -> big.Uint64 x = x.
Proof.
  intros Hx. unfold big.Uint64. rewrite Z.abs_eq by lia.
  apply Z.mod_small. exact Hx.
Qed.

Lemma uint64_byte b : 0 <= FtmBridge.uint64 b < 256.
Proof.
  unfold FtmBridge.uint64. pose proof (Byte.to_N_bounded b). lia.
Qed.

(** A number below [2^k] put under a number shifted by [k] adds to it. *)
Lemma lor_shiftl_low a b k :
  0 <= k -> 0 <= b < 2 ^ k -> Z.lor (Z.shiftl a k) b = a * 2 ^ k + b.
Proof.
  intros Hk Hb.
  assert (Hdisjoint : Z.land (Z.shiftl a k) b = 0).
  { apply Z.bits_inj'. intros i Hi. rewrite Z.land_spec, Z.bits_0.
    destruct (Z.lt_ge_cases i k) as [Hlow|Hhigh].
    - rewrite Z.shiftl_spec_low by exact Hlow. reflexivity.
    - rewrite <- (Z.mod_small b (2 ^ k)) by exact Hb.
      rewrite Z.mod_pow2_bits_high by lia. apply andb_false_r. }
  pose proof (Z.add_lor_land (Z.shiftl a k) b) as Hadd.
  rewrite Hdisjoint, Z.add_0_r, Z.shiftl_mul_pow2 in Hadd by exact Hk.
  rewrite Z.shiftl_mul_pow2 by exact Hk. exact Hadd.
Qed.

Section Counters.
Context {N : Type} `{lachesis.Node N} `{opera.Node N}.
Implicit Types (n : N).

(** X11. The ids and counts read from the contract ([CurrentEpoch],
    [CurrentSealedEpoch], [LastStakerId], [StakersNum]) are always unsigned
    64-bit numbers, and zero whenever an error comes with them; a last staker
    id or a staker count that fits 64 bits is returned as the contract gave
    it. *)
Theorem contract_counters_are_uint64 n :
  (let r := value (rpc.CurrentEpoch n) in
   0 <= fst r < 2 ^ 64 /\ (snd r <> None -> fst r = 0))
  /\ (let r := value (rpc.CurrentSealedEpoch n) in
      0 <= fst r < 2 ^ 64 /\ (snd r <> None -> fst r = 0))
  /\ (let r := xvalue (FtmBridge.LastStakerId n) in
      0 <= fst r < 2 ^ 64 /\ (snd r <> None -> fst r = 0))
  /\ (let r := xvalue (FtmBridge.StakersNum n) in
      0 <= fst r < 2 ^ 64 /\ (snd r <> None -> fst r = 0))
  /\ (forall n1 n2 v,
         lachesis.NewSfcContract n = (n1, None) ->
         0 <= v < 2 ^ 64 ->
         (opera.StakersLastID n1 = (n2, Ok v) ->
          xvalue (FtmBridge.LastStakerId n) = (v, None))
         /\ (opera.StakersNum n1 = (n2, Ok v) ->
             xvalue (FtmBridge.StakersNum n) = (v, None))).
Proof.
  split; [|split; [|split; [|split]]].
  - unfold_bridge.
    destruct (lachesis.NewSfcContract n) as [n1 [e|]]; simpl; [split; [lia|reflexivity]|].
    destruct (lachesis.CurrentEpoch n1) as [n2 [v|e]]; simpl;
      [split; [apply Uint64_range|congruence]|split; [lia|reflexivity]].
  - unfold_bridge.
    destruct (lachesis.NewSfcContract n) as [n1 [e|]]; simpl; [split; [lia|reflexivity]|].
    destruct (lachesis.CurrentSealedEpoch n1) as [n2 [v|e]]; simpl;
      [split; [apply Uint64_range|congruence]|split; [lia|reflexivity]].
  - unfold_actions.
    destruct (lachesis.NewSfcContract n) as [n1 [e|]]; simpl; [split; [lia|reflexivity]|].
    destruct (opera.StakersLastID n1) as [n2 [v|e]]; simpl;
      [split; [apply Uint64_range|congruence]|split; [lia|reflexivity]].
  - unfold_actions.
    destruct (lachesis.NewSfcContract n) as [n1 [e|]]; simpl; [split; [lia|reflexivity]|].
    destruct (opera.StakersNum n1) as [n2 [v|e]]; simpl;
      [split; [apply Uint64_range|congruence]|split; [lia|reflexivity]].
  - intros n1 n2 v Hbind Hv. split; intros Hcall; unfold_actions;
      rewrite Hbind; simpl; rewrite Hcall; simpl;
      rewrite (Uint64_exact v Hv); reflexivity.
Qed.

(** X12. The version of the contract is its three bytes packed most
    significant first: [65536 * v0 + 256 * v1 + v2], below [2^24], and each
    byte is read back from it by a shift and a mask. *)
Theorem SfcVersion_packs n n1 n2 v0 v1 v2 :
  lachesis.NewSfcContract n = (n1, None) ->
  opera.Version n1 = (n2, Ok (v0, v1, v2)) ->
  exists ver,
    xvalue (FtmBridge.SfcVersion n) = (ver, None)
    /\ ver = 65536 * FtmBridge.uint64 v0 + 256 * FtmBridge.uint64 v1
             + FtmBridge.uint64 v2
    /\ 0 <= ver < 2 ^ 24
    /\ Z.land (Z.shiftr ver 16) 0xff = FtmBridge.uint64 v0
    /\ Z.land (Z.shiftr ver 8) 0xff = FtmBridge.uint64 v1
    /\ Z.land ver 0xff = FtmBridge.uint64 v2.
Proof.
  intros Hbind Hversion.
  pose proof (uint64_byte v0) as Hb0.
  pose proof (uint64_byte v1) as Hb1.
  pose proof (uint64_byte v2) as Hb2.
  eexists. split.
  { unfold_actions. rewrite Hbind. simpl. rewrite Hversion. reflexivity. }
  assert (Hpacked :
            Z.lor (Z.lor (FtmBridge.shl64 (FtmBridge.uint64 v0) 16)
                         (FtmBridge.shl64 (FtmBridge.uint64 v1) 8))
                  (FtmBridge.uint64 v2)
            = 65536 * FtmBridge.uint64 v0 + 256 * FtmBridge.uint64 v1
              + FtmBridge.uint64 v2).
  { unfold FtmBridge.shl64.
    rewrite !Z.shiftl_mul_pow2 by lia.
    rewrite !Z.mod_small by lia.
    replace (FtmBridge.uint64 v0 * 2 ^ 16)
      with ((FtmBridge.uint64 v0 * 2 ^ 8) * 2 ^ 8) by lia.
    rewrite <- !(Z.shiftl_mul_pow2 _ 8) by lia.
    rewrite <- (Z.shiftl_lor (Z.shiftl (FtmBridge.uint64 v0) 8)).
    rewrite (lor_shiftl_low (FtmBridge.uint64 v0) (FtmBridge.uint64 v1) 8) by lia.
    rewrite lor_shiftl_low by lia. lia. }
  rewrite Hpacked. split; [reflexivity|]. split; [lia|].
  change 0xff with (Z.ones 8).
  rewrite !Z.land_ones, !Z.shiftr_div_pow2 by lia.
  repeat split; Z.div_mod_to_equations; lia.
Qed.
End Counters.

Lemma actions_app to (t1 t2 : list Action) :
  actions to (t1 ++ t2) = actions to t1 ++ actions to t2.
Proof. unfold actions. apply List.filter_app. Qed.

Section Submission.
Context {C D N : Type}.
Context `{cache.MemBridge C} `{db.MongoDbBridge D}.
Context `{lachesis.Node N} `{opera.Node N}.
Implicit Types (p : repository.proxy C D N) (tx : list Byte.byte).

Lemma SendTransaction_refused p tx n1 err :
  opera.SendTransaction (repository.rpc p) tx = (n1, Err err) ->
  proxy.SendTransaction tx p
  = (None, Some err,
     repository.mkProxy (repository.cache p) (repository.db p) n1,
     [Base (Log logger.Debug "requested transaction submit for %s");
      CallSendTransaction tx;
      Base (Log logger.Error "can not send transaction to block chain; %s")]).
Proof. intros Hsend. unfold_actions. rewrite Hsend. reflexivity. Qed.

Lemma SendTransaction_accepted p tx n1 hash n2 res :
  opera.SendTransaction (repository.rpc p) tx = (n1, Ok hash) ->
  lachesis.Transaction n1 hash = (n2, res) ->
  proxy.SendTransaction tx p
  = (match res with
     | Ok trx => (Some trx, None)
     | Err err =>
         (None, Some (if is_ErrNoResult err then ErrTransactionNotFound else err))
     end,
     repository.mkProxy (repository.cache p) (repository.db p) n2,
     [Base (Log logger.Debug "requested transaction submit for %s");
      CallSendTransaction tx;
      Base (NodeTransaction hash)]
     ++ match res with
        | Ok _ => [Base (Log logger.Debug "transaction %s created and found")]
        | Err err =>
            if is_ErrNoResult err
            then [Base (Log logger.Warning "transaction not found in the blockchain")]
            else []
        end).
Proof.
  intros Hsend Hfetch. unfold_actions. rewrite Hsend. simpl. rewrite Hfetch.
  destruct res as [trx|err]; simpl; [reflexivity|].
  destruct (is_ErrNoResult err); reflexivity.
Qed.

(** X13. A submission that the node refuses returns the node's error as it
    is, and the transaction is not fetched.  A submission that the node
    accepts is followed by one fetch under the hash the node answered: the
    fetched transaction is returned, a no-result of the fetch becomes
    [ErrTransactionNotFound], any other error of the fetch is returned as it
    is. *)
Theorem SendTransaction_outcomes p tx :
  (forall n1 err,
      opera.SendTransaction (repository.rpc p) tx = (n1, Err err) ->
      let r := proxy.SendTransaction tx p in
      xvalue r = (None, Some err)
      /\ actions ToNode (xtrace r) = [CallSendTransaction tx])
  /\ (forall n1 hash n2 res,
      opera.SendTransaction (repository.rpc p) tx = (n1, Ok hash) ->
      lachesis.Transaction n1 hash = (n2, res) ->
      let r := proxy.SendTransaction tx p in
      actions ToNode (xtrace r) = [CallSendTransaction tx; Base (NodeTransaction hash)]
      /\ (forall trx, res = Ok trx -> xvalue r = (Some trx, None))
      /\ (res = Err ErrNoResult -> xvalue r = (None, Some ErrTransactionNotFound))
      /\ (forall err, res = Err err -> err <> ErrNoResult ->
                      xvalue r = (None, Some err))).
Proof.
  split.
  - intros n1 err Hsend r. subst r. rewrite (SendTransaction_refused _ _ _ _ Hsend).
    split; reflexivity.
  - intros n1 hash n2 res Hsend Hfetch r. subst r.
    rewrite (SendTransaction_accepted _ _ _ _ _ _ Hsend Hfetch).
    unfold xvalue, xtrace. cbn [fst snd]. split; [|split; [|split]].
    + destruct res as [trx|err]; [reflexivity|].
      destruct (is_ErrNoResult err); reflexivity.
    + intros trx ->. reflexivity.
    + intros ->. reflexivity.
    + intros err -> Hne. destruct err; [congruence|reflexivity|reflexivity].
Qed.

End Submission.

(** * Properties of the resolvable account *)

Section AccountMemo.
Context {R : Type} `{Repository.Accounts R}.
Implicit Types (a : AccountResolver.t R) (repo : R).

(** X15. The balance of a resolvable account is read from the repository
    once: a successful read is remembered, and every later request answers
    the remembered balance without calling the repository, whatever the
    repository would answer by then.  A failed read answers zero with the
    error and remembers nothing, so the next request reads again. *)
Theorem Balance_is_remembered a :
  (forall bal,
      AccountResolver.rfBalance a = Some bal ->
      AccountResolver.Balance a = (bal, None, a, []))
  /\ (forall repo' bal,
      AccountResolver.rfBalance a = None ->
      Repository.AccountBalance (AccountResolver.repo a) (AccountResolver.account a)
      = (repo', Ok bal) ->
      let r := AccountResolver.Balance a in
      xvalue r = (bal, None)
      /\ xtrace r = [CallAccountBalance (AccountResolver.account a)]
      /\ AccountResolver.rfBalance (xstate r) = Some bal
      /\ AccountResolver.Balance (xstate r) = (bal, None, xstate r, []))
  /\ (forall repo' err,
      AccountResolver.rfBalance a = None ->
      Repository.AccountBalance (AccountResolver.repo a) (AccountResolver.account a)
      = (repo', Err err) ->
      let r := AccountResolver.Balance a in
      xvalue r = (0, Some err)
      /\ AccountResolver.rfBalance (xstate r) = None
      /\ xtrace (AccountResolver.Balance (xstate r))
         = [CallAccountBalance (AccountResolver.account a)]).
Proof.
  split; [|split].
  - intros bal Hmemo. unfold AccountResolver.Balance. rewrite Hmemo. reflexivity.
  - intros repo' bal Hmemo Hcall r. subst r.
    unfold_actions. rewrite Hmemo. simpl. rewrite Hcall. simpl. repeat split.
  - intros repo' err Hmemo Hcall r. subst r.
    unfold_actions. rewrite Hmemo. simpl. rewrite Hcall. simpl.
    split; [reflexivity|]. split; [reflexivity|].
    destruct (Repository.AccountBalance repo' (AccountResolver.account a))
      as [repo'' [bal|err']]; reflexivity.
Qed.

(** X16. Resolving an account fails with the repository's error when the
    repository has none to give.  Otherwise it gives a resolvable account
    around the account of the repository, with no balance remembered: its
    first balance request calls the repository once. *)
Theorem Account_resolves addr repo :
  (forall repo' err,
      Repository.Account repo addr = (repo', Err err) ->
      xvalue (AccountResolver.Account addr repo) = (None, Some err))
  /\ (forall repo' acc,
      Repository.Account repo addr = (repo', Ok acc) ->
      exists a,
        xvalue (AccountResolver.Account addr repo) = (Some a, None)
        /\ xstate (AccountResolver.Account addr repo) = repo'
        /\ xtrace (AccountResolver.Account addr repo) = [CallAccount addr]
        /\ AccountResolver.account a = acc
        /\ AccountResolver.repo a = repo'
        /\ AccountResolver.rfBalance a = None
        /\ xtrace (AccountResolver.Balance a) = [CallAccountBalance acc]).
Proof.
  split.
  - intros repo' err Hcall. unfold_actions. rewrite Hcall. reflexivity.
  - intros repo' acc Hcall. eexists. split.
    { unfold_actions. rewrite Hcall. reflexivity. }
    unfold_actions. rewrite Hcall. simpl. repeat split.
    destruct (Repository.AccountBalance repo' acc) as [repo'' [bal|err]];
      reflexivity.
Qed.

(** X17. The transaction count of a resolvable account is never remembered:
    every request calls the repository once, with or without a remembered
    balance, and leaves what is remembered as it is; a failed read answers
    zero with the error. *)
Theorem TxCount_always_reads a :
  let r := AccountResolver.TxCount a in
  xtrace r = [CallAccountNonce (AccountResolver.account a)]
  /\ AccountResolver.rfBalance (xstate r) = AccountResolver.rfBalance a
  /\ AccountResolver.account (xstate r) = AccountResolver.account a
  /\ xtrace (AccountResolver.TxCount (xstate r))
     = [CallAccountNonce (AccountResolver.account a)]
  /\ (forall repo' err,
         Repository.AccountNonce (AccountResolver.repo a) (AccountResolver.account a)
         = (repo', Err err) ->
         xvalue r = (0, Some err))
  /\ (forall repo' count,
         Repository.AccountNonce (AccountResolver.repo a) (AccountResolver.account a)
         = (repo', Ok count) ->
         xvalue r = (count, None)).
Proof.
  intros r. subst r. unfold_actions.
  destruct (Repository.AccountNonce (AccountResolver.repo a)
              (AccountResolver.account a)) as [repo' [count|err]] eqn:Hcall;
    simpl;
    (split; [reflexivity|]); (split; [reflexivity|]); (split; [reflexivity|]);
    (split; [destruct (Repository.AccountNonce repo' (AccountResolver.account a))
               as [repo'' [count'|err']]; reflexivity|]);
    split; intros ? ? [=]; subst; reflexivity.
Qed.
End AccountMemo.

(** ** The further properties on the reference bridges *)

(** X2 on the sample facade: the confirmed transaction fetched by the first
    lookup is served by the second without the node. *)
Lemma Transaction_populates_witness :
  let again :=
    repository.Transaction 0xa1 (state (repository.Transaction 0xa1 sample.fresh)) in
  value again = (Some sample.confirmed, None) /\ calls ToNode (trace again) = [].
Proof.
  apply (Transaction_populates sample.fresh 0xa1 sample.node sample.confirmed 0xb1);
    reflexivity.
Defined.

(** X3 on the sample facade. *)
Lemma CurrentSealedEpoch_populates_witness :
  let again :=
    repository.CurrentSealedEpoch
      (state (repository.CurrentSealedEpoch sample.fresh)) in
  value again = (Some (Epoch.mk 41 1600000000 14400 7 11 13 17 19 23 29), None)
  /\ calls ToNode (trace again) = [].
Proof.
  apply (CurrentSealedEpoch_populates sample.fresh 41 sample.node
           [NodeNewSfcContract; SfcCurrentSealedEpoch]
           (Epoch.mk 41 1600000000 14400 7 11 13 17 19 23 29)
           sample.node
           [NodeNewSfcContract; SfcEpochSnapshots 41]);
    reflexivity.
Defined.

(** X4 on the sample facades: the error of the id read, and the error of the
    snapshot read, come back and the cache stays empty. *)
Lemma CurrentSealedEpoch_failures_witness :
  (value (repository.CurrentSealedEpoch sampleOpera.noSealedId)
   = (None, Some (ErrOther "execution reverted"))
   /\ repository.cache (state (repository.CurrentSealedEpoch sampleOpera.noSealedId))
      = memcache.empty)
  /\ (value (repository.CurrentSealedEpoch sampleOpera.noSnapshot)
      = (None, Some (ErrOther "execution reverted"))
      /\ repository.cache (state (repository.CurrentSealedEpoch sampleOpera.noSnapshot))
         = memcache.empty).
Proof.
  split.
  - assert (Hmiss : cache.PullLastEpoch (repository.cache sampleOpera.noSealedId) = None)
      by reflexivity.
    destruct (proj1 (CurrentSealedEpoch_failures sampleOpera.noSealedId Hmiss)
                0 (ErrOther "execution reverted") sampleOpera.nodeNoSealedId
                [NodeNewSfcContract; SfcCurrentSealedEpoch;
                 Log logger.Error "failed to get the current sealed epoch: %v"])
      as (Hvalue & _ & Hcache); [reflexivity|].
    split; assumption.
  - assert (Hmiss : cache.PullLastEpoch (repository.cache sampleOpera.noSnapshot) = None)
      by reflexivity.
    destruct (proj2 (CurrentSealedEpoch_failures sampleOpera.noSnapshot Hmiss)
                41 sampleOpera.nodeNoSnapshot
                [NodeNewSfcContract; SfcCurrentSealedEpoch]
                Epoch.zero (ErrOther "execution reverted")
                sampleOpera.nodeNoSnapshot
                [NodeNewSfcContract; SfcEpochSnapshots 41;
                 Log logger.Error "failed to extract epoch information: %v"])
      as (Hvalue & _ & Hcache); [reflexivity|reflexivity|].
    split; assumption.
Defined.

(** X5 on the sample nodes. *)
Lemma rpc_Epoch_outcomes_witness :
  Epoch.Id (fst (value (rpc.Epoch 41 sample.node))) = 41
  /\ fst (value (rpc.Epoch 41 sampleOpera.nodeNoSnapshot)) = Epoch.zero.
Proof.
  split.
  - apply (proj1 (rpc_Epoch_outcomes 41 sample.node)). reflexivity.
  - apply (proj1 (proj2 (rpc_Epoch_outcomes 41 sampleOpera.nodeNoSnapshot))).
    discriminate.
Defined.


(** X7 on the sample nodes: four reads for a complete record, three for a
    partial one. *)
Lemma extendStaker_contract_reads_witness :
  calls ToNode (trace (rpc.extendStaker sample.baseStaker sample.node))
  = [NodeNewSfcContract; SfcStakers 1; SfcMaxDelegatedRatio; SfcLockedStakes 1]
  /\ calls ToNode (trace (rpc.extendStaker sample.baseStaker
                            sampleOpera.nodePartialRecord))
     = [NodeNewSfcContract; SfcStakers 1; SfcLockedStakes 1].
Proof.
  split.
  - rewrite (proj1 (extendStaker_contract_reads sample.baseStaker sample.node)
               sample.node) by reflexivity.
    reflexivity.
  - rewrite (proj1 (extendStaker_contract_reads sample.baseStaker
                      sampleOpera.nodePartialRecord)
               sampleOpera.nodePartialRecord) by reflexivity.
    reflexivity.
Defined.

(** X8 on the sample node. *)
Lemma extendStaker_keeps_identity_witness :
  exists r,
    value (rpc.extendStaker sample.baseStaker sample.node) = (Some r, None)
    /\ Staker.Id r = 1
    /\ Staker.StakerAddress r = 0x51.
Proof.
  eexists. split; [reflexivity|].
  match goal with
  | |- Staker.Id ?r = _ /\ _ =>
      assert (Hvalue : value (rpc.extendStaker sample.baseStaker sample.node)
                       = (Some r, None)) by reflexivity;
      destruct (extendStaker_keeps_identity sample.baseStaker sample.node r None
                  Hvalue) as (_ & Hid & Haddress & _)
  end.
  split; [exact Hid|exact Haddress].
Defined.

(** X9 on the sample node with a partial record: stake and status are
    stored, the total stake and the limits are not computed. *)
Lemma stakerStatusFromSfc_incomplete_witness :
  let r := fst (value (rpc.stakerStatusFromSfc sample.baseStaker
                         sampleOpera.nodePartialRecord)) in
  Staker.Stake r = Some 3000000
  /\ Staker.Status r = 256
  /\ Staker.TotalStake r = None
  /\ Staker.TotalDelegatedLimit r = 0.
Proof.
  assert (Hcall : lachesis.Stakers sampleOpera.nodePartialRecord
                    (big.NewInt_int64 (Staker.Id sample.baseStaker))
                  = (sampleOpera.nodePartialRecord,
                     Ok (SfcContract.Stakers.mk (Some 256) (Some 3000000) None)))
    by reflexivity.
  destruct (stakerStatusFromSfc_incomplete sample.baseStaker
              sampleOpera.nodePartialRecord sampleOpera.nodePartialRecord
              (SfcContract.Stakers.mk (Some 256) (Some 3000000) None)
              Hcall eq_refl)
    as (_ & _ & Htotal & Hlimit & _ & Hstake & _ & Hstatus).
  cbv zeta. split; [exact Hstake|]. split; [exact Hstatus|].
  split; [exact Htotal|exact Hlimit].
Defined.

(** X10 on the sample node, at the ratio of 15. *)
Lemma maxDelegatedLimit_bounds_witness :
  value (rpc.maxDelegatedLimit (Some 3000000) sample.node)
  <= value (rpc.maxDelegatedLimit (Some 4000000) sample.node)
  /\ 0 <= value (rpc.maxDelegatedLimit (Some 3000000) sample.node).
Proof.
  assert (Hratio : lachesis.MaxDelegatedRatio sample.node = (sample.node, Ok 15000000))
    by reflexivity.
  destruct (maxDelegatedLimit_bounds sample.node sample.node 15000000
              Hratio ltac:(lia)) as (_ & Hpos & _ & Hmono & _).
  split; [apply Hmono; lia|apply Hpos; lia].
Defined.

(** X11 on the sample node: the last staker id and the number of stakers
    come back as the contract gave them. *)
Lemma contract_counters_are_uint64_witness :
  xvalue (FtmBridge.LastStakerId sampleOpera.node) = (25, None)
  /\ xvalue (FtmBridge.StakersNum sampleOpera.node) = (21, None).
Proof.
  assert (Hbind : lachesis.NewSfcContract sampleOpera.node = (sampleOpera.node, None))
    by reflexivity.
  pose proof (contract_counters_are_uint64 sampleOpera.node)
    as (_ & _ & _ & _ & Hexact).
  split.
  - apply (proj1 (Hexact sampleOpera.node sampleOpera.node 25 Hbind ltac:(lia))).
    reflexivity.
  - apply (proj2 (Hexact sampleOpera.node sampleOpera.node 21 Hbind ltac:(lia))).
    reflexivity.
Defined.

(** X12 on the sample node: the bytes "1", "0", "2" pack to [0x313032]. *)
Lemma SfcVersion_packs_witness :
  exists ver,
    xvalue (FtmBridge.SfcVersion sampleOpera.node) = (ver, None)
    /\ ver = 0x313032
    /\ Z.land (Z.shiftr ver 16) 0xff = 0x31.
Proof.
  assert (Hbind : lachesis.NewSfcContract sampleOpera.node = (sampleOpera.node, None))
    by reflexivity.
  assert (Hversion : opera.Version sampleOpera.node
                     = (sampleOpera.node, Ok (Byte.x31, Byte.x30, Byte.x32)))
    by reflexivity.
  destruct (SfcVersion_packs sampleOpera.node sampleOpera.node sampleOpera.node
              Byte.x31 Byte.x30 Byte.x32 Hbind Hversion)
    as (ver & Hvalue & Hsum & _ & Hhigh & _).
  exists ver. split; [exact Hvalue|]. split; [|exact Hhigh].
  rewrite Hsum. reflexivity.
Defined.

(** X13 on the sample facades: an accepted submission returns the fetched
    transaction, a refused one the error of the node. *)
Lemma SendTransaction_outcomes_witness :
  xvalue (proxy.SendTransaction [Byte.xf8; Byte.x6b] sampleOpera.fresh)
  = (Some sample.confirmed, None)
  /\ xvalue (proxy.SendTransaction [Byte.xf8; Byte.x6b] sampleOpera.refusing)
     = (None, Some (ErrOther "nonce too low")).
Proof.
  split.
  - assert (Hsend : opera.SendTransaction (repository.rpc sampleOpera.fresh)
                      [Byte.xf8; Byte.x6b] = (sampleOpera.node, Ok 0xa1))
      by reflexivity.
    assert (Hfetch : lachesis.Transaction sampleOpera.node 0xa1
                     = (sampleOpera.node, Ok sample.confirmed)) by reflexivity.
    destruct (proj2 (SendTransaction_outcomes sampleOpera.fresh [Byte.xf8; Byte.x6b])
                sampleOpera.node 0xa1 sampleOpera.node (Ok sample.confirmed)
                Hsend Hfetch) as (_ & Hok & _).
    apply Hok. reflexivity.
  - assert (Hsend : opera.SendTransaction (repository.rpc sampleOpera.refusing)
                      [Byte.xf8; Byte.x6b]
                    = (sampleOpera.nodeRefusing, Err (ErrOther "nonce too low")))
      by reflexivity.
    apply (proj1 (SendTransaction_outcomes sampleOpera.refusing [Byte.xf8; Byte.x6b])
             sampleOpera.nodeRefusing (ErrOther "nonce too low") Hsend).
Defined.


(** X15 on the sample repositories: the balance is read once and then
    remembered; a failed read is tried again. *)
Lemma Balance_is_remembered_witness :
  xtrace (AccountResolver.Balance
            (xstate (AccountResolver.Balance
                       (AccountResolver.NewAccount sample.account sampleOpera.accounts))))
  = []
  /\ xtrace (AccountResolver.Balance
               (xstate (AccountResolver.Balance
                          (AccountResolver.NewAccount sample.account
                             sampleOpera.accountsNoBalance))))
     = [CallAccountBalance sample.account].
Proof.
  split.
  - assert (Hcall : Repository.AccountBalance sampleOpera.accounts sample.account
                    = (sampleOpera.accounts, Ok 7000)) by reflexivity.
    destruct (proj1 (proj2 (Balance_is_remembered
                              (AccountResolver.NewAccount sample.account
                                 sampleOpera.accounts)))
                sampleOpera.accounts 7000 eq_refl Hcall)
      as (_ & _ & _ & Hagain).
    rewrite Hagain. reflexivity.
  - assert (Hcall : Repository.AccountBalance sampleOpera.accountsNoBalance
                      sample.account
                    = (sampleOpera.accountsNoBalance, Err (ErrOther "timeout")))
      by reflexivity.
    destruct (proj2 (proj2 (Balance_is_remembered
                              (AccountResolver.NewAccount sample.account
                                 sampleOpera.accountsNoBalance)))
                sampleOpera.accountsNoBalance (ErrOther "timeout") eq_refl Hcall)
      as (_ & _ & Hagain).
    exact Hagain.
Defined.

(** X16 on the sample repository. *)
Lemma Account_resolves_witness :
  exists a,
    xvalue (AccountResolver.Account 0x10 sampleOpera.accounts) = (Some a, None)
    /\ AccountResolver.rfBalance a = None
    /\ xtrace (AccountResolver.Balance a) = [CallAccountBalance sample.account].
Proof.
  assert (Hcall : Repository.Account sampleOpera.accounts 0x10
                  = (sampleOpera.accounts, Ok sample.account)) by reflexivity.
  destruct (proj2 (Account_resolves 0x10 sampleOpera.accounts)
              sampleOpera.accounts sample.account Hcall)
    as (a & Hvalue & _ & _ & _ & _ & Hmemo & Hfirst).
  exists a. split; [exact Hvalue|]. split; [exact Hmemo|exact Hfirst].
Defined.

(** X17 on the sample repository: the nonce is read again after the balance
    has been remembered. *)
Lemma TxCount_always_reads_witness :
  xvalue (AccountResolver.TxCount
            (xstate (AccountResolver.Balance
                       (AccountResolver.NewAccount sample.account sampleOpera.accounts))))
  = (3, None).
Proof.
  apply (proj2 (proj2 (proj2 (proj2 (proj2
           (TxCount_always_reads
              (xstate (AccountResolver.Balance
                         (AccountResolver.NewAccount sample.account
                            sampleOpera.accounts))))))))
           sampleOpera.accounts 3).
  reflexivity.
Defined.
